(** * FPL_API: fixture-difficulty flattening and next-five-fixtures ranking

    A shallow embedding of [get_fpl_fdr] and [analyze_next_5_fixtures_fdr]
    of [Python code/FPL_API.py], and the properties of the ranking they
    compute.

    Modelling conventions.
    - A pandas DataFrame is the list of its rows, in index order.
    - Python integers are [Z]; strings are [string]; a cell that holds either
      a string or an integer is a [cell].
    - Every cell of the sheet holds a value: team names are strings,
      gameweeks and ratings are integers.
    - [Series.mean()] is the exact rational sum/count in [Q].  The Python
      value is the double nearest to it; rounding to nearest is monotone, and
      two means of at most five ratings below 2^40 that differ as rationals
      differ as doubles, so comparisons of means are the same on both sides.
    - [sort_values] is taken through the class [SortValues]: the code calls
      it with the default [kind] (quicksort), for which pandas promises a
      sorted rearrangement of the rows and nothing about rows with equal
      keys.  Two instances are given, one that keeps equal keys in their
      order and one that does not.
    - A Python call either returns a value or raises: [outcome].
    - The HTTP exchange and the console are outside the model: the
      functions take the decoded payloads, resp. the content of
      [fpl_fdr_all.xlsx] ([None] when the file does not exist).  The working
      directory is modelled in [IO]: a sheet read back is the frame that was
      written, and [os.remove] and [to_excel] are taken to succeed. *)

From Stdlib Require Import List ZArith QArith String Bool Permutation Sorted Lia.
From Stdlib Require Import DecimalString DecimalZ.
Import ListNotations.

Local Open Scope Z_scope.
Local Open Scope string_scope.
Local Open Scope list_scope.

(** ** Python values and calls *)

Inductive cell : Type :=
| CStr (s : string)
| CInt (z : Z).

(** The empty string [''] that fills an unused slot. *)
Definition blank : cell := CStr EmptyString.

Inductive exn : Type :=
| KeyError (key : cell).

Inductive outcome (A : Type) : Type :=
| Returns (a : A)
| Raises (e : exn).

Arguments Returns {A} a.
Arguments Raises {A} e.

Definition bind {A B : Type} (c : outcome A) (k : A -> outcome B) : outcome B :=
  match c with
  | Returns a => k a
  | Raises e => Raises e
  end.

Notation "x <- c ;; k" := (bind c (fun x => k))
  (at level 61, c at next level, right associativity).

(** ** The upstream payloads *)

Module Raw.

(** An element of [bootstrap_data['teams']]. *)
Record team : Type := {
  team_id : Z;
  name : string
}.

(** An element of the fixtures response. *)
Record fixture : Type := {
  id : Z;
  event : Z;
  team_h : Z;
  team_a : Z;
  team_h_difficulty : Z;
  team_a_difficulty : Z;
  kickoff_time : option string;
  finished : bool
}.

End Raw.

(** A dict from team id to team name; the binding nearest the head wins. *)
Definition dict : Type := list (Z * string).

Fixpoint dict_get (d : dict) (k : Z) : option string :=
  match d with
  | [] => None
  | (k', v) :: d' => if (k =? k')%Z then Some v else dict_get d' k
  end.

Definition dict_set (d : dict) (k : Z) (v : string) : dict := (k, v) :: d.

(** [{team['id']: team['name'] for team in bootstrap_data['teams']}] *)
Definition teams_dict (l : list Raw.team) : dict :=
  fold_left (fun d t => dict_set d (Raw.team_id t) (Raw.name t)) l [].

(** [teams[k]] *)
Definition getitem (teams : dict) (k : Z) : outcome string :=
  match dict_get teams k with
  | Some v => Returns v
  | None => Raises (KeyError (CInt k))
  end.

(** ** FixtureDifficultyEntry: a row of [fpl_fdr_all.xlsx] *)

Record fdr_entry : Type := {
  fixture_id : Z;
  gameweek : Z;
  team : string;
  opponent : string;
  home_away : string;
  difficulty_rating : Z;
  kickoff_time : option string;
  finished : bool
}.

Definition dataframe : Type := list fdr_entry.

(** ** get_fpl_fdr *)

(** The body of the loop over [fixtures_data]: the two dicts appended to
    [fdr_data], keys evaluated in the order they are written. *)
Definition fdr_rows (teams : dict) (fixture : Raw.fixture) : outcome (list fdr_entry) :=
  h_team <- getitem teams (Raw.team_h fixture) ;;
  h_opponent <- getitem teams (Raw.team_a fixture) ;;
  let home :=
    {| fixture_id := Raw.id fixture;
       gameweek := Raw.event fixture;
       team := h_team;
       opponent := h_opponent;
       home_away := "Home";
       difficulty_rating := Raw.team_h_difficulty fixture;
       kickoff_time := Raw.kickoff_time fixture;
       finished := Raw.finished fixture |} in
  a_team <- getitem teams (Raw.team_a fixture) ;;
  a_opponent <- getitem teams (Raw.team_h fixture) ;;
  let away :=
    {| fixture_id := Raw.id fixture;
       gameweek := Raw.event fixture;
       team := a_team;
       opponent := a_opponent;
       home_away := "Away";
       difficulty_rating := Raw.team_a_difficulty fixture;
       kickoff_time := Raw.kickoff_time fixture;
       finished := Raw.finished fixture |} in
  Returns [home; away].

Fixpoint fdr_loop (teams : dict) (fixtures_data : list Raw.fixture)
    (fdr_data : list fdr_entry) : outcome (list fdr_entry) :=
  match fixtures_data with
  | [] => Returns fdr_data
  | fixture :: rest =>
      rows <- fdr_rows teams fixture ;;
      fdr_loop teams rest (fdr_data ++ rows)
  end.

(** The [try] block of [get_fpl_fdr], from the decoded responses on. *)
Definition get_fpl_fdr_body (bootstrap_teams : list Raw.team)
    (fixtures_data : list Raw.fixture) : outcome (option dataframe) :=
  let teams := teams_dict bootstrap_teams in
  fdr_data <- fdr_loop teams fixtures_data [] ;;
  Returns (Some fdr_data).

(** [except Exception: ... return None] *)
Definition get_fpl_fdr (bootstrap_teams : list Raw.team)
    (fixtures_data : list Raw.fixture) : outcome (option dataframe) :=
  match get_fpl_fdr_body bootstrap_teams fixtures_data with
  | Returns v => Returns v
  | Raises _ => Returns None
  end.

(** ** pandas helpers *)

(** [Series.unique()]: the distinct values in order of first appearance. *)
Fixpoint unique_from (seen : list string) (l : list string) : list string :=
  match l with
  | [] => []
  | x :: xs =>
      if existsb (String.eqb x) seen then unique_from seen xs
      else x :: unique_from (x :: seen) xs
  end.

Definition unique (l : list string) : list string := unique_from [] l.

Fixpoint sum (l : list Z) : Z :=
  match l with
  | [] => 0
  | x :: xs => x + sum xs
  end.

(** [Series.mean()].  On an empty series pandas gives NaN, which [Q] does
    not have; [row_nonempty_window] shows the analysis never asks for it. *)
Definition mean (l : list Z) : Q :=
  (inject_Z (sum l) / inject_Z (Z.of_nat (List.length l)))%Q.

(** [DataFrame.sort_values(by)] with the default [kind]: some rearrangement
    of the rows in which the keys never decrease. *)
Class SortValues : Type := {
  sort_values : forall {A : Type}, (A -> Q) -> list A -> list A;
  sort_values_perm :
    forall (A : Type) (by_ : A -> Q) (l : list A),
      Permutation (sort_values by_ l) l;
  sort_values_sorted :
    forall (A : Type) (by_ : A -> Q) (l : list A),
      StronglySorted (fun a b => (by_ a <= by_ b)%Q) (sort_values by_ l)
}.

(** ** RankedTeamRow *)

Module TeamRow.

(** A dict appended to [team_analysis]. *)
Record t : Type := {
  team : string;
  fixtures_analyzed : Z;
  average_fdr : Q;
  total_fdr : Z;
  gw1_opponent : cell; gw1_fdr : cell; gw1_home_away : cell;
  gw2_opponent : cell; gw2_fdr : cell; gw2_home_away : cell;
  gw3_opponent : cell; gw3_fdr : cell; gw3_home_away : cell;
  gw4_opponent : cell; gw4_fdr : cell; gw4_home_away : cell;
  gw5_opponent : cell; gw5_fdr : cell; gw5_home_away : cell
}.

End TeamRow.

(** A row of the returned [analysis_df]. *)
Record ranked_row : Type := {
  fdr_rank : Z;
  row : TeamRow.t
}.

(** ** analyze_next_5_fixtures_fdr *)

(** [fixtures.iloc[i][col] if len(fixtures) > i else ''].  Under the guard
    [iloc[i]] exists; the inner [None] is the IndexError it rules out. *)
Definition iloc_or_blank (fixtures : list fdr_entry) (i : nat)
    (col : fdr_entry -> cell) : cell :=
  if (i <? List.length fixtures)%nat then
    match nth_error fixtures i with
    | Some e => col e
    | None => blank
    end
  else blank.

(** The dict built from a team and its [fixtures]. *)
Definition team_row (team : string) (fixtures : list fdr_entry) : TeamRow.t :=
  let opp := fun e => CStr (opponent e) in
  let fdr := fun e => CInt (difficulty_rating e) in
  let ha := fun e => CStr (home_away e) in
  {| TeamRow.team := team;
     TeamRow.fixtures_analyzed := Z.of_nat (List.length fixtures);
     TeamRow.average_fdr := mean (map difficulty_rating fixtures);
     TeamRow.total_fdr := sum (map difficulty_rating fixtures);
     TeamRow.gw1_opponent := iloc_or_blank fixtures 0 opp;
     TeamRow.gw1_fdr := iloc_or_blank fixtures 0 fdr;
     TeamRow.gw1_home_away := iloc_or_blank fixtures 0 ha;
     TeamRow.gw2_opponent := iloc_or_blank fixtures 1 opp;
     TeamRow.gw2_fdr := iloc_or_blank fixtures 1 fdr;
     TeamRow.gw2_home_away := iloc_or_blank fixtures 1 ha;
     TeamRow.gw3_opponent := iloc_or_blank fixtures 2 opp;
     TeamRow.gw3_fdr := iloc_or_blank fixtures 2 fdr;
     TeamRow.gw3_home_away := iloc_or_blank fixtures 2 ha;
     TeamRow.gw4_opponent := iloc_or_blank fixtures 3 opp;
     TeamRow.gw4_fdr := iloc_or_blank fixtures 3 fdr;
     TeamRow.gw4_home_away := iloc_or_blank fixtures 3 ha;
     TeamRow.gw5_opponent := iloc_or_blank fixtures 4 opp;
     TeamRow.gw5_fdr := iloc_or_blank fixtures 4 fdr;
     TeamRow.gw5_home_away := iloc_or_blank fixtures 4 ha |}.

(** [analysis_df['fdr_rank'] = range(1, len(analysis_df) + 1)] *)
Definition add_rank (analysis_df : list TeamRow.t) : list ranked_row :=
  map (fun p => {| fdr_rank := Z.of_nat (fst p); row := snd p |})
      (combine (seq 1 (List.length analysis_df)) analysis_df).

(** [(df['gameweek'] >= start_gameweek) & (df['gameweek'] <= end_gameweek)],
    row by row. *)
Definition gameweek_mask (start_gameweek end_gameweek : Z) (e : fdr_entry) : bool :=
  (gameweek e >=? start_gameweek)%Z && (gameweek e <=? end_gameweek)%Z.

Section Analysis.

Context {SV : SortValues}.

(** [df[(df['gameweek'] >= start_gameweek) & (df['gameweek'] <= end_gameweek)]] *)
Definition next_5 (df : dataframe) (start_gameweek : Z) : dataframe :=
  let end_gameweek := start_gameweek + 4 in
  filter (gameweek_mask start_gameweek end_gameweek) df.

(** [next_5_df[next_5_df['team'] == team].sort_values('gameweek')] *)
Definition team_data (next_5_df : dataframe) (t : string) : list fdr_entry :=
  sort_values (fun e => inject_Z (gameweek e))
              (filter (fun e => String.eqb (team e) t) next_5_df).

(** [team_data.head(5)]: the team's window. *)
Definition fixtures (next_5_df : dataframe) (t : string) : list fdr_entry :=
  firstn 5 (team_data next_5_df t).

(** The loop over [next_5_df['team'].unique()]. *)
Definition team_analysis (next_5_df : dataframe) : list TeamRow.t :=
  flat_map
    (fun t =>
       if (0 <? List.length (team_data next_5_df t))%nat
       then [team_row t (fixtures next_5_df t)]
       else [])
    (unique (map team next_5_df)).

(** [pd.DataFrame(team_analysis).sort_values('average_fdr')]: a frame
    built from an empty list has no columns, and sorting it by a column
    raises [KeyError]. *)
Definition sort_by_average_fdr (rows : list TeamRow.t) : outcome (list TeamRow.t) :=
  match rows with
  | [] => Raises (KeyError (CStr "average_fdr"))
  | _ :: _ => Returns (sort_values TeamRow.average_fdr rows)
  end.

(** The [try] block.  [file] is the content of [fpl_fdr_all.xlsx], [None]
    when [os.path.exists] is false. *)
Definition analyze_body (file : option dataframe) (start_gameweek : Z)
    : outcome (option (list ranked_row)) :=
  match file with
  | None => Returns None
  | Some df =>
      let next_5_df := next_5 df start_gameweek in
      analysis_df <- sort_by_average_fdr (team_analysis next_5_df) ;;
      Returns (Some (add_rank analysis_df))
  end.

(** [except Exception as e: print(...); return None] *)
Definition analyze_next_5_fixtures_fdr (file : option dataframe)
    (start_gameweek : Z) : outcome (option (list ranked_row)) :=
  match analyze_body file start_gameweek with
  | Returns v => Returns v
  | Raises _ => Returns None
  end.

End Analysis.


(** ** Sample data *)

Definition entry (f g : Z) (t o ha : string) (d : Z) : fdr_entry :=
  {| fixture_id := f; gameweek := g; team := t; opponent := o;
     home_away := ha; difficulty_rating := d;
     kickoff_time := None; finished := false |}.

(** Team A v Team B in gameweek 1 (difficulty 2/4), Team A v Team C in
    gameweek 2 (difficulty 5/1). *)
Definition df_abc : dataframe :=
  [ entry 1 1 "Team A" "Team B" "Home" 2;
    entry 1 1 "Team B" "Team A" "Away" 4;
    entry 2 2 "Team A" "Team C" "Home" 5;
    entry 2 2 "Team C" "Team A" "Away" 1 ].

(** The row of Team A in the ranking of [df_abc] from gameweek 1. *)
Definition ranked_team_a : ranked_row :=
  {| fdr_rank := 2;
     row := team_row "Team A"
              [ entry 1 1 "Team A" "Team B" "Home" 2;
                entry 2 2 "Team A" "Team C" "Home" 5 ] |}.

(** One fixture, rated the same for both sides. *)
Definition df_tie : dataframe :=
  [ entry 1 1 "Arsenal" "Spurs" "Home" 3;
    entry 1 1 "Spurs" "Arsenal" "Away" 3 ].

(** Team A plays twice in gameweek 1. *)
Definition df_double : dataframe :=
  [ entry 1 1 "Team A" "Team B" "Home" 2;
    entry 1 1 "Team B" "Team A" "Away" 4;
    entry 2 1 "Team A" "Team C" "Away" 3;
    entry 2 1 "Team C" "Team A" "Home" 3 ].

(** Team A has six entries in gameweeks 1 to 5, latest first. *)
Definition df_six : dataframe :=
  [ entry 6 5 "Team A" "Team G" "Home" 2;
    entry 5 4 "Team A" "Team F" "Away" 3;
    entry 4 3 "Team A" "Team E" "Home" 4;
    entry 3 2 "Team A" "Team D" "Away" 2;
    entry 2 1 "Team A" "Team C" "Home" 5;
    entry 1 1 "Team A" "Team B" "Away" 1 ].

Definition bootstrap_sample : list Raw.team :=
  [ {| Raw.team_id := 1; Raw.name := "Arsenal" |};
    {| Raw.team_id := 2; Raw.name := "Spurs" |} ].

Definition fixture_sample : Raw.fixture :=
  {| Raw.id := 7; Raw.event := 3; Raw.team_h := 2; Raw.team_a := 1;
     Raw.team_h_difficulty := 4; Raw.team_a_difficulty := 3;
     Raw.kickoff_time := None; Raw.finished := false |}.

(** The team's entries with [gameweek] in [[g, g+4]], in index order: the
    rows the window is drawn from, as the specification words it. *)
Definition entries_in_range (df : dataframe) (g : Z) (t : string) : list fdr_entry :=
  filter (fun e => String.eqb (team e) t && (g <=? gameweek e)%Z && (gameweek e <=? g + 4)%Z) df.

(** The team column of the ranking. *)
Definition ranked_teams (rows : list ranked_row) : list string :=
  map (fun r => TeamRow.team (row r)) rows.

(** ** The other two fetches *)

(** The keys of a fixture that only [get_fpl_fixtures] reads, beside those
    of [Raw.fixture]. *)
Module RawFixture.

Record t : Type := {
  core : Raw.fixture;
  team_h_score : option Z;
  team_a_score : option Z;
  minutes : Z;
  provisional_start_time : bool
}.

End RawFixture.

(** A row of [fpl_fixtures_all.xlsx]. *)
Module FixtureRow.

Record t : Type := {
  fixture_id : Z;
  gameweek : Z;
  kickoff_time : option string;
  home_team : string;
  away_team : string;
  finished : bool;
  home_score : option Z;
  away_score : option Z;
  minutes : Z;
  provisional_start_time : bool
}.

End FixtureRow.

(** The dict appended to [fixtures] for one fixture. *)
Definition fixture_row (teams : dict) (fixture : RawFixture.t) : outcome FixtureRow.t :=
  home_team <- getitem teams (Raw.team_h (RawFixture.core fixture)) ;;
  away_team <- getitem teams (Raw.team_a (RawFixture.core fixture)) ;;
  Returns
    {| FixtureRow.fixture_id := Raw.id (RawFixture.core fixture);
       FixtureRow.gameweek := Raw.event (RawFixture.core fixture);
       FixtureRow.kickoff_time := Raw.kickoff_time (RawFixture.core fixture);
       FixtureRow.home_team := home_team;
       FixtureRow.away_team := away_team;
       FixtureRow.finished := Raw.finished (RawFixture.core fixture);
       FixtureRow.home_score := RawFixture.team_h_score fixture;
       FixtureRow.away_score := RawFixture.team_a_score fixture;
       FixtureRow.minutes := RawFixture.minutes fixture;
       FixtureRow.provisional_start_time := RawFixture.provisional_start_time fixture |}.

Fixpoint fixtures_loop (teams : dict) (fixtures_data : list RawFixture.t)
    (fixtures : list FixtureRow.t) : outcome (list FixtureRow.t) :=
  match fixtures_data with
  | [] => Returns fixtures
  | fixture :: rest =>
      r <- fixture_row teams fixture ;;
      fixtures_loop teams rest (fixtures ++ [r])
  end.

(** [get_fpl_fixtures], from the decoded responses to the frame returned. *)
Definition get_fpl_fixtures (bootstrap_teams : list Raw.team)
    (fixtures_data : list RawFixture.t) : outcome (option (list FixtureRow.t)) :=
  match fixtures_loop (teams_dict bootstrap_teams) fixtures_data [] with
  | Returns fixtures => Returns (Some fixtures)
  | Raises _ => Returns None
  end.

(** An element of [data['elements']]. *)
Module RawPlayer.

Record t : Type := {
  id : Z;
  first_name : string;
  second_name : string;
  web_name : string;
  team : Z;
  element_type : Z;
  now_cost : Z;
  total_points : Z;
  form : string;
  points_per_game : string
}.

End RawPlayer.

(** A row of [fpl_players.xlsx]. *)
Module PlayerRow.

Record t : Type := {
  id : Z;
  name : string;
  web_name : string;
  club : string;
  position : Z;
  current_price : Q;
  total_points : Z;
  form : string;
  points_per_game : string
}.

End PlayerRow.

(** The dict appended to [players] for one player; [now_cost / 10] is the
    exact tenth in [Q]. *)
Definition player_row (teams : dict) (player : RawPlayer.t) : outcome PlayerRow.t :=
  let name := (RawPlayer.first_name player ++ " " ++ RawPlayer.second_name player)%string in
  club <- getitem teams (RawPlayer.team player) ;;
  Returns
    {| PlayerRow.id := RawPlayer.id player;
       PlayerRow.name := name;
       PlayerRow.web_name := RawPlayer.web_name player;
       PlayerRow.club := club;
       PlayerRow.position := RawPlayer.element_type player;
       PlayerRow.current_price := (inject_Z (RawPlayer.now_cost player) / 10)%Q;
       PlayerRow.total_points := RawPlayer.total_points player;
       PlayerRow.form := RawPlayer.form player;
       PlayerRow.points_per_game := RawPlayer.points_per_game player |}.

Fixpoint players_loop (teams : dict) (elements : list RawPlayer.t)
    (players : list PlayerRow.t) : outcome (list PlayerRow.t) :=
  match elements with
  | [] => Returns players
  | player :: rest =>
      r <- player_row teams player ;;
      players_loop teams rest (players ++ [r])
  end.

(** [get_fpl_player_data], from the decoded response to the frame returned. *)
Definition get_fpl_player_data (data_teams : list Raw.team)
    (data_elements : list RawPlayer.t) : outcome (option (list PlayerRow.t)) :=
  match players_loop (teams_dict data_teams) data_elements [] with
  | Returns players => Returns (Some players)
  | Raises _ => Returns None
  end.

(** ** File names and files *)

(** The text of an integer in an f-string. *)
Definition str (n : Z) : string := NilEmpty.string_of_int (Z.to_int n).

(** [if event_id:] is false for [None] and for 0. *)
Definition truthy (event_id : option Z) : bool :=
  match event_id with
  | None => false
  | Some n => negb (n =? 0)%Z
  end.

(** The text of [event_id] in an f-string, used under [if event_id:]. *)
Definition str_event (event_id : option Z) : string :=
  match event_id with
  | None => "None"
  | Some n => str n
  end.

(** The fixtures URL of [get_fpl_fixtures] and [get_fpl_fdr]. *)
Definition fixtures_url (event_id : option Z) : string :=
  if truthy event_id
  then ("https://fantasy.premierleague.com/api/fixtures/?event=" ++ str_event event_id)%string
  else "https://fantasy.premierleague.com/api/fixtures/".

Definition fdr_filename (event_id : option Z) : string :=
  if truthy event_id
  then ("fpl_fdr_gw" ++ str_event event_id ++ ".xlsx")%string
  else "fpl_fdr_all.xlsx".

Definition fixtures_filename (event_id : option Z) : string :=
  if truthy event_id
  then ("fpl_fixtures_gw" ++ str_event event_id ++ ".xlsx")%string
  else "fpl_fixtures_all.xlsx".

Definition players_filename : string := "fpl_players.xlsx".

(** [f"fpl_next5_fdr_analysis_gw{start_gameweek}.xlsx"] *)
Definition next5_filename (start_gameweek : Z) : string :=
  ("fpl_next5_fdr_analysis_gw" ++ str start_gameweek ++ ".xlsx")%string.

(** What a spreadsheet of the working directory holds; reading a sheet back
    gives the frame that was written. *)
Inductive sheet : Type :=
| PlayersSheet (players : list PlayerRow.t)
| FixturesSheet (fixtures : list FixtureRow.t)
| FdrSheet (df : dataframe)
| Next5Sheet (analysis_df : list ranked_row).

(** The working directory: the first binding of a name is the file. *)
Definition files : Type := list (string * sheet).

Fixpoint read (fs : files) (filename : string) : option sheet :=
  match fs with
  | [] => None
  | (n, sh) :: fs' => if String.eqb filename n then Some sh else read fs' filename
  end.

(** [if os.path.exists(filename): os.remove(filename)] *)
Definition os_remove (filename : string) (fs : files) : files :=
  filter (fun p => negb (String.eqb filename (fst p))) fs.

(** [df.to_excel(filename)]: creates or replaces the file. *)
Definition to_excel (filename : string) (sh : sheet) (fs : files) : files :=
  (filename, sh) :: os_remove filename fs.

(** The functions with their effect on the working directory.  The frame
    is built before any file is touched, so a call that fails leaves the
    directory as it was. *)
Module IO.

Definition get_fpl_player_data (data_teams : list Raw.team)
    (data_elements : list RawPlayer.t) (fs : files)
    : outcome (option (list PlayerRow.t)) * files :=
  match get_fpl_player_data data_teams data_elements with
  | Returns (Some df) =>
      let fs := os_remove "fpl_players.xlsx" fs in
      let filename := players_filename in
      (Returns (Some df), to_excel filename (PlayersSheet df) fs)
  | r => (r, fs)
  end.

Definition get_fpl_fixtures (event_id : option Z) (bootstrap_teams : list Raw.team)
    (fixtures_data : list RawFixture.t) (fs : files)
    : outcome (option (list FixtureRow.t)) * files :=
  match get_fpl_fixtures bootstrap_teams fixtures_data with
  | Returns (Some df) =>
      let filename_to_delete := fixtures_filename event_id in
      let fs := os_remove filename_to_delete fs in
      let filename := fixtures_filename event_id in
      (Returns (Some df), to_excel filename (FixturesSheet df) fs)
  | r => (r, fs)
  end.

Definition get_fpl_fdr (event_id : option Z) (bootstrap_teams : list Raw.team)
    (fixtures_data : list Raw.fixture) (fs : files)
    : outcome (option dataframe) * files :=
  match get_fpl_fdr bootstrap_teams fixtures_data with
  | Returns (Some df) =>
      let filename_to_delete := fdr_filename event_id in
      let fs := os_remove filename_to_delete fs in
      let filename := fdr_filename event_id in
      (Returns (Some df), to_excel filename (FdrSheet df) fs)
  | r => (r, fs)
  end.

(** A sheet at [fpl_fdr_all.xlsx] that is not an FDR frame lacks a column
    the analysis reads; the [KeyError] is caught and [None] returned. *)
Definition analyze_next_5_fixtures_fdr {SV : SortValues} (start_gameweek : Z)
    (fs : files) : outcome (option (list ranked_row)) * files :=
  match read fs "fpl_fdr_all.xlsx" with
  | None => (analyze_next_5_fixtures_fdr None start_gameweek, fs)
  | Some (FdrSheet df) =>
      match analyze_next_5_fixtures_fdr (Some df) start_gameweek with
      | Returns (Some analysis_df) =>
          let filename := next5_filename start_gameweek in
          let fs := os_remove filename fs in
          (Returns (Some analysis_df), to_excel filename (Next5Sheet analysis_df) fs)
      | r => (r, fs)
      end
  | Some _ => (Returns None, fs)
  end.


End IO.

(** The three columns of slot [i] of a row, [i] counted from 0. *)
Definition slot (r : TeamRow.t) (i : nat) : cell * cell * cell :=
  match i with
  | 0%nat => (TeamRow.gw1_opponent r, TeamRow.gw1_fdr r, TeamRow.gw1_home_away r)
  | 1%nat => (TeamRow.gw2_opponent r, TeamRow.gw2_fdr r, TeamRow.gw2_home_away r)
  | 2%nat => (TeamRow.gw3_opponent r, TeamRow.gw3_fdr r, TeamRow.gw3_home_away r)
  | 3%nat => (TeamRow.gw4_opponent r, TeamRow.gw4_fdr r, TeamRow.gw4_home_away r)
  | 4%nat => (TeamRow.gw5_opponent r, TeamRow.gw5_fdr r, TeamRow.gw5_home_away r)
  | _ => (blank, blank, blank)
  end.

(** More sample data *)

Definition fixture_full_sample : RawFixture.t :=
  {| RawFixture.core := fixture_sample;
     RawFixture.team_h_score := Some 2;
     RawFixture.team_a_score := Some 1;
     RawFixture.minutes := 90;
     RawFixture.provisional_start_time := false |}.

Definition player_sample : RawPlayer.t :=
  {| RawPlayer.id := 10;
     RawPlayer.first_name := "Bukayo";
     RawPlayer.second_name := "Saka";
     RawPlayer.web_name := "Saka";
     RawPlayer.team := 1;
     RawPlayer.element_type := 3;
     RawPlayer.now_cost := 101;
     RawPlayer.total_points := 50;
     RawPlayer.form := "6.5";
     RawPlayer.points_per_game := "5.0" |}.

(** ** Two sorts that meet the contract of [sort_values] *)

Section Insertion.

Context {A : Type} (by_ : A -> Q).

(** Whether [x] is put in front of [y].  [keep_ties = true]: as soon as
    the key of [y] is not smaller; [false]: only when it is larger. *)
Definition goes_before (keep_ties : bool) (x y : A) : bool :=
  if keep_ties then Qle_bool (by_ x) (by_ y)
  else negb (Qle_bool (by_ y) (by_ x)).

Fixpoint insert_by (keep_ties : bool) (x : A) (l : list A) : list A :=
  match l with
  | [] => [x]
  | y :: l' =>
      if goes_before keep_ties x y then x :: l
      else y :: insert_by keep_ties x l'
  end.

Definition insertion_sort (keep_ties : bool) (l : list A) : list A :=
  fold_right (insert_by keep_ties) [] l.

Let le_by (a b : A) : Prop := (by_ a <= by_ b)%Q.

Lemma goes_before_le k x y : goes_before k x y = true -> le_by x y.
Proof.
  unfold goes_before, le_by. destruct k; intro E.
  - now apply Qle_bool_iff.
  - apply negb_true_iff in E. apply Qlt_le_weak, Qnot_le_lt.
    intro C. apply Qle_bool_iff in C. congruence.
Qed.

Lemma goes_after_le k x y : goes_before k x y = false -> le_by y x.
Proof.
  unfold goes_before, le_by. destruct k; intro E.
  - apply Qlt_le_weak, Qnot_le_lt.
    intro C. apply Qle_bool_iff in C. congruence.
  - apply negb_false_iff in E. now apply Qle_bool_iff.
Qed.

Lemma insert_by_perm k x l : Permutation (insert_by k x l) (x :: l).
Proof.
  induction l as [|y l IH]; simpl.
  - reflexivity.
  - destruct (goes_before k x y).
    + reflexivity.
    + rewrite IH. apply perm_swap.
Qed.

Lemma insertion_sort_perm k l : Permutation (insertion_sort k l) l.
Proof.
  induction l as [|x l IH]; simpl.
  - constructor.
  - rewrite insert_by_perm. now constructor.
Qed.

Lemma insert_by_sorted k x l :
  StronglySorted le_by l -> StronglySorted le_by (insert_by k x l).
Proof.
  induction l as [|y l IH]; simpl; intro S.
  - repeat constructor.
  - apply StronglySorted_inv in S. destruct S as [Sl Hy].
    destruct (goes_before k x y) eqn:E.
    + constructor; [constructor; assumption|].
      apply goes_before_le in E.
      constructor; [assumption|].
      revert Hy. apply Forall_impl. intros z Hz.
      unfold le_by in *. eapply Qle_trans; eassumption.
    + constructor; [now apply IH|].
      apply (Permutation_Forall (Permutation_sym (insert_by_perm k x l))).
      constructor; [|assumption]. now apply (goes_after_le k).
Qed.

Lemma insertion_sort_sorted k l : StronglySorted le_by (insertion_sort k l).
Proof.
  induction l as [|x l IH]; simpl.
  - constructor.
  - now apply insert_by_sorted.
Qed.



End Insertion.

(** The sort that keeps rows of equal key in their order ([kind='stable'];
    also what numpy's quicksort does on a short array). *)
Definition stable_sort : SortValues :=
  {| sort_values := fun A by_ l => insertion_sort by_ true l;
     sort_values_perm := fun A by_ l => insertion_sort_perm by_ true l;
     sort_values_sorted := fun A by_ l => insertion_sort_sorted by_ true l |}.



(** ** Lists *)

Section ListFacts.

Context {A : Type}.

Lemma StronglySorted_impl (R R' : A -> A -> Prop) (l : list A) :
  (forall a b, R a b -> R' a b) -> StronglySorted R l -> StronglySorted R' l.
Proof.
  intros HR. induction 1 as [|a l S IH F]; constructor; auto.
  revert F. apply Forall_impl. auto.
Qed.

Lemma StronglySorted_map {B : Type} (f : A -> B) (R : B -> B -> Prop) (l : list A) :
  StronglySorted R (map f l) <-> StronglySorted (fun a b => R (f a) (f b)) l.
Proof.
  induction l as [|a l IH]; simpl; split; intro S; try constructor;
    apply StronglySorted_inv in S; destruct S as [S F].
  - now apply IH.
  - apply Forall_forall. intros b Hb.
    rewrite Forall_forall in F. apply F. now apply in_map.
  - now apply IH.
  - apply Forall_forall. intros b Hb. apply in_map_iff in Hb.
    destruct Hb as (c & <- & Hc). rewrite Forall_forall in F. now apply F.
Qed.

Lemma StronglySorted_app_inv (R : A -> A -> Prop) (l1 l2 : list A) :
  StronglySorted R (l1 ++ l2) ->
  StronglySorted R l1 /\ StronglySorted R l2
  /\ Forall (fun a => Forall (R a) l2) l1.
Proof.
  induction l1 as [|a l1 IH]; simpl; intro S.
  - repeat split; [constructor | assumption | constructor].
  - apply StronglySorted_inv in S. destruct S as [S F].
    destruct (IH S) as (S1 & S2 & F12).
    apply Forall_app in F. destruct F as [F1 F2].
    repeat split; try constructor; assumption.
Qed.

Lemma filter_filter (f g : A -> bool) (l : list A) :
  filter f (filter g l) = filter (fun a => g a && f a) l.
Proof.
  induction l as [|a l IH]; simpl; [reflexivity|].
  destruct (g a); simpl; [destruct (f a)|]; now rewrite IH.
Qed.

Lemma flat_map_guard {B : Type} (guard : A -> bool) (f : A -> B) (l : list A) :
  (forall a, In a l -> guard a = true) ->
  flat_map (fun a => if guard a then [f a] else []) l = map f l.
Proof.
  induction l as [|a l IH]; simpl; intro H; [reflexivity|].
  rewrite (H a) by now left. simpl. f_equal. apply IH. intros; apply H; now right.
Qed.

End ListFacts.

Lemma unique_from_In seen l x :
  In x (unique_from seen l) <-> In x l /\ ~ In x seen.
Proof.
  revert seen. induction l as [|y l IH]; intro seen; simpl.
  - tauto.
  - destruct (existsb (String.eqb y) seen) eqn:E.
    + apply existsb_exists in E. destruct E as (z & Hz & Ez).
      apply String.eqb_eq in Ez. subst z.
      rewrite IH. split; [tauto|]. intros [[->|H] N]; tauto.
    + assert (N : ~ In y seen).
      { intro H. enough (existsb (String.eqb y) seen = true) by congruence.
        apply existsb_exists. exists y. split; [assumption | apply String.eqb_refl]. }
      simpl. rewrite IH. simpl.
      destruct (string_dec y x) as [->|D]; [tauto|].
      split; [intros [?|(? & ?)]; tauto | intros [[?|?] ?]; tauto].
Qed.

Lemma unique_from_NoDup seen l : NoDup (unique_from seen l).
Proof.
  revert seen. induction l as [|y l IH]; intro seen; simpl.
  - constructor.
  - destruct (existsb (String.eqb y) seen); [apply IH|].
    constructor; [|apply IH].
    rewrite unique_from_In. simpl. tauto.
Qed.

Lemma unique_In l x : In x (unique l) <-> In x l.
Proof. unfold unique. rewrite unique_from_In. simpl. tauto. Qed.

Lemma unique_NoDup l : NoDup (unique l).
Proof. apply unique_from_NoDup. Qed.

Lemma add_rank_row l : map row (add_rank l) = l.
Proof.
  unfold add_rank. rewrite map_map. simpl.
  generalize 1%nat. induction l as [|r l IH]; intro k; simpl; [reflexivity|].
  f_equal. apply IH.
Qed.

Lemma add_rank_position l i r :
  nth_error (add_rank l) i = Some r -> fdr_rank r = Z.of_nat i + 1.
Proof.
  unfold add_rank.
  enough (G : forall k, nth_error
              (map (fun p => {| fdr_rank := Z.of_nat (fst p); row := snd p |})
                   (combine (seq k (List.length l)) l)) i = Some r ->
            fdr_rank r = Z.of_nat i + Z.of_nat k).
  { intro H. apply G in H. exact H. }
  revert i. induction l as [|x l IH]; intros i k.
  - destruct i; discriminate.
  - destruct i as [|i]; cbn [List.length seq combine map nth_error fst snd].
    + intros [= <-]. cbn [fdr_rank]. lia.
    + intro H. apply IH in H. lia.
Qed.

Lemma sorted_le_NoDup_lt (l : list Z) :
  StronglySorted Z.le l -> NoDup l -> StronglySorted Z.lt l.
Proof.
  induction 1 as [|a l S IH F]; intro N; constructor;
    apply NoDup_cons_iff in N; destruct N as [Na N].
  - now apply IH.
  - rewrite Forall_forall in *. intros b Hb.
    specialize (F b Hb). assert (a <> b) by (intros ->; tauto). lia.
Qed.

(** ** The analysis, step by step *)

Section AnalysisFacts.

Context {SV : SortValues}.

Lemma next_5_In df g e :
  In e (next_5 df g) <-> In e df /\ g <= gameweek e <= g + 4.
Proof.
  unfold next_5, gameweek_mask.
  rewrite filter_In, andb_true_iff, Z.geb_le, Z.leb_le. tauto.
Qed.

Lemma entries_in_range_In df g t e :
  In e (entries_in_range df g t)
  <-> In e df /\ team e = t /\ g <= gameweek e <= g + 4.
Proof.
  unfold entries_in_range.
  rewrite filter_In, !andb_true_iff, String.eqb_eq, !Z.leb_le. tauto.
Qed.

Lemma team_data_entries df g t :
  Permutation (team_data (next_5 df g) t) (entries_in_range df g t).
Proof.
  unfold team_data, next_5, entries_in_range.
  rewrite sort_values_perm, filter_filter.
  erewrite filter_ext; [reflexivity|].
  intro e. unfold gameweek_mask. rewrite Z.geb_leb.
  destruct (String.eqb (team e) t), (g <=? gameweek e)%Z, (gameweek e <=? g + 4)%Z;
    reflexivity.
Qed.

Lemma team_data_sorted n5 t :
  StronglySorted (fun a b => gameweek a <= gameweek b) (team_data n5 t).
Proof.
  unfold team_data.
  eapply StronglySorted_impl; [|apply sort_values_sorted].
  intros a b H. simpl in H. now rewrite Zle_Qle.
Qed.

Lemma team_data_nonempty n5 t :
  In t (map team n5) -> (0 <? List.length (team_data n5 t))%nat = true.
Proof.
  intro H. apply in_map_iff in H. destruct H as (e & Et & He).
  apply Nat.ltb_lt.
  assert (I : In e (team_data n5 t)).
  { unfold team_data.
    apply (Permutation_in _ (Permutation_sym (sort_values_perm _ _ _))).
    apply filter_In. split; [assumption|]. now apply String.eqb_eq. }
  destruct (team_data n5 t); [destruct I | simpl; lia].
Qed.

(** The guard [len(team_data) > 0] always holds: one row per team met. *)
Lemma team_analysis_map n5 :
  team_analysis n5 = map (fun t => team_row t (fixtures n5 t)) (unique (map team n5)).
Proof.
  unfold team_analysis.
  apply (flat_map_guard (fun t => (0 <? List.length (team_data n5 t))%nat)
                        (fun t => team_row t (fixtures n5 t))).
  intros t H. apply team_data_nonempty. now apply unique_In.
Qed.

Lemma team_analysis_teams n5 :
  map TeamRow.team (team_analysis n5) = unique (map team n5).
Proof.
  rewrite team_analysis_map, map_map. simpl. apply map_id.
Qed.

Lemma analyze_rows df g rows :
  analyze_next_5_fixtures_fdr (Some df) g = Returns (Some rows) ->
  team_analysis (next_5 df g) <> []
  /\ rows = add_rank (sort_values TeamRow.average_fdr (team_analysis (next_5 df g))).
Proof.
  unfold analyze_next_5_fixtures_fdr, analyze_body, sort_by_average_fdr.
  destruct (team_analysis (next_5 df g)) as [|r l]; simpl; [discriminate|].
  intros [= <-]. split; [discriminate | reflexivity].
Qed.

Lemma analyze_rows_perm df g rows :
  analyze_next_5_fixtures_fdr (Some df) g = Returns (Some rows) ->
  Permutation (map row rows) (team_analysis (next_5 df g)).
Proof.
  intro H. apply analyze_rows in H. destruct H as [_ ->].
  rewrite add_rank_row. apply sort_values_perm.
Qed.

Lemma ranked_teams_perm df g rows :
  analyze_next_5_fixtures_fdr (Some df) g = Returns (Some rows) ->
  Permutation (ranked_teams rows) (unique (map team (next_5 df g))).
Proof.
  intro H. apply analyze_rows_perm in H.
  apply (Permutation_map TeamRow.team) in H.
  unfold ranked_teams. rewrite map_map in H.
  now rewrite team_analysis_teams in H.
Qed.

(** Every row of the ranking is the row built from its team's window. *)
Lemma row_origin df g rows r :
  analyze_next_5_fixtures_fdr (Some df) g = Returns (Some rows) ->
  In r rows ->
  In (TeamRow.team (row r)) (map team (next_5 df g))
  /\ row r = team_row (TeamRow.team (row r)) (fixtures (next_5 df g) (TeamRow.team (row r))).
Proof.
  intros H Hr. apply analyze_rows_perm in H.
  assert (I : In (row r) (team_analysis (next_5 df g))).
  { apply (Permutation_in _ H). now apply in_map. }
  rewrite team_analysis_map in I. apply in_map_iff in I.
  destruct I as (t & Et & Ht). rewrite <- Et. simpl.
  split; [now apply unique_In | reflexivity].
Qed.

Lemma fixtures_length df g t :
  List.length (fixtures (next_5 df g) t)
  = Nat.min 5 (List.length (entries_in_range df g t)).
Proof.
  unfold fixtures. rewrite length_firstn.
  now rewrite (Permutation_length (team_data_entries df g t)).
Qed.

Lemma fixtures_nonempty n5 t :
  In t (map team n5) -> fixtures n5 t <> [].
Proof.
  intro H. apply team_data_nonempty in H. apply Nat.ltb_lt in H.
  unfold fixtures. destruct (team_data n5 t); simpl in *; [lia | discriminate].
Qed.

End AnalysisFacts.

(** ** The ranking *)

(** C1: on every entry set for which the analysis returns a ranking (the set
    is then non-empty), whatever the start gameweek, the rows come sorted by
    non-decreasing [average_fdr], and the [fdr_rank] of a row is its 1-based
    position in that sequence. *)
Theorem ranking_sorted_by_average (SV : SortValues) (df : dataframe) (g : Z)
    (rows : list ranked_row) :
  analyze_next_5_fixtures_fdr (Some df) g = Returns (Some rows) ->
  StronglySorted
    (fun a b => (TeamRow.average_fdr (row a) <= TeamRow.average_fdr (row b))%Q) rows
  /\ forall i r, nth_error rows i = Some r -> fdr_rank r = Z.of_nat i + 1.
Proof.
  intro H. apply analyze_rows in H. destruct H as [_ ->]. split.
  - apply (StronglySorted_map row
             (fun a b => (TeamRow.average_fdr a <= TeamRow.average_fdr b)%Q)).
    rewrite add_rank_row. apply sort_values_sorted.
  - intros i r. apply add_rank_position.
Qed.

Lemma ranking_sorted_by_average_witness :
  exists rows,
    analyze_next_5_fixtures_fdr (SV:=stable_sort) (Some df_abc) 1
    = Returns (Some rows)
    /\ ranked_teams rows = ["Team C"; "Team A"; "Team B"]
    /\ StronglySorted
         (fun a b => (TeamRow.average_fdr (row a) <= TeamRow.average_fdr (row b))%Q) rows
    /\ forall i r, nth_error rows i = Some r -> fdr_rank r = Z.of_nat i + 1.
Proof.
  eexists. split; [vm_compute; reflexivity|].
  split; [reflexivity|].
  apply (ranking_sorted_by_average stable_sort df_abc 1). vm_compute; reflexivity.
Defined.



(** C10: every row of the ranking has [fixtures_analyzed >= 1]: it is built
    from a non-empty window, so the mean is never taken of an empty series;
    and no team has two rows. *)
Theorem row_nonempty_window (SV : SortValues) (df : dataframe) (g : Z)
    (rows : list ranked_row) :
  analyze_next_5_fixtures_fdr (Some df) g = Returns (Some rows) ->
  Forall (fun r =>
            1 <= TeamRow.fixtures_analyzed (row r)
            /\ fixtures (next_5 df g) (TeamRow.team (row r)) <> []
            /\ row r = team_row (TeamRow.team (row r))
                         (fixtures (next_5 df g) (TeamRow.team (row r)))) rows
  /\ NoDup (ranked_teams rows).
Proof.
  intro H. split.
  - apply Forall_forall. intros r Hr.
    destruct (row_origin df g rows r H Hr) as [I E].
    pose proof (fixtures_nonempty _ _ I) as N.
    repeat split; try assumption.
    rewrite E. simpl.
    destruct (fixtures (next_5 df g) (TeamRow.team (row r))); [congruence|].
    simpl List.length. lia.
  - apply (Permutation_NoDup (Permutation_sym (ranked_teams_perm df g rows H))).
    apply unique_NoDup.
Qed.

Lemma row_nonempty_window_witness :
  exists rows,
    analyze_next_5_fixtures_fdr (SV:=stable_sort) (Some df_abc) 1
    = Returns (Some rows)
    /\ map (fun r => TeamRow.fixtures_analyzed (row r)) rows = [1; 2; 1]
    /\ NoDup (ranked_teams rows).
Proof.
  eexists. split; [vm_compute; reflexivity|].
  split; [reflexivity|].
  apply (row_nonempty_window stable_sort df_abc 1). vm_compute; reflexivity.
Defined.

(** C2 (as the code has it): a team with no entry in gameweeks [[g, g+4]]
    gets no row at all in the ranking from [g]. *)
Theorem team_out_of_range_has_no_row (SV : SortValues) (df : dataframe) (g : Z)
    (rows : list ranked_row) (t : string) :
  analyze_next_5_fixtures_fdr (Some df) g = Returns (Some rows) ->
  entries_in_range df g t = [] ->
  ~ In t (ranked_teams rows).
Proof.
  intros H E I.
  apply (Permutation_in _ (ranked_teams_perm df g rows H)) in I.
  apply unique_In, in_map_iff in I. destruct I as (e & Et & He).
  apply next_5_In in He.
  assert (C : In e (entries_in_range df g t))
    by (apply entries_in_range_In; tauto).
  rewrite E in C. destruct C.
Qed.

Lemma team_out_of_range_has_no_row_witness :
  exists rows,
    analyze_next_5_fixtures_fdr (SV:=stable_sort) (Some df_abc) 2
    = Returns (Some rows)
    /\ entries_in_range df_abc 2 "Team B" = []
    /\ ~ In "Team B" (ranked_teams rows).
Proof.
  eexists. split; [vm_compute; reflexivity|].
  split; [reflexivity|].
  apply (team_out_of_range_has_no_row stable_sort df_abc 2);
    vm_compute; reflexivity.
Defined.

(** C2 as stated fails: Team B is in the entry set, has no entry in
    gameweeks 2 to 6, and the ranking from gameweek 2 has rows for Team C
    and Team A only, none for Team B. *)
Lemma known_team_without_row :
  In "Team B" (map team df_abc)
  /\ entries_in_range df_abc 2 "Team B" = []
  /\ exists rows,
       analyze_next_5_fixtures_fdr (SV:=stable_sort) (Some df_abc) 2
       = Returns (Some rows)
       /\ ranked_teams rows = ["Team C"; "Team A"]
       /\ ~ exists r, In r rows /\ TeamRow.team (row r) = "Team B"
                      /\ TeamRow.fixtures_analyzed (row r) = 0.
Proof.
  split; [right; left; reflexivity|].
  split; [reflexivity|].
  eexists. split; [vm_compute; reflexivity|].
  split; [reflexivity|].
  intros (r & [<-|[<-|[]]] & T & _); discriminate T.
Qed.

(** ** The window *)

(** C4: the window of a team is sorted by ascending gameweek, holds
    min(5, n) of the team's n entries with gameweek in [[g, g+4]], and the
    entries left out come no earlier than any entry kept: the sort comes
    before the cut. *)
Theorem window_sorted_then_truncated (SV : SortValues) (df : dataframe) (g : Z)
    (t : string) :
  let window := fixtures (next_5 df g) t in
  StronglySorted (fun a b => gameweek a <= gameweek b) window
  /\ List.length window = Nat.min 5 (List.length (entries_in_range df g t))
  /\ exists rest,
       Permutation (window ++ rest) (entries_in_range df g t)
       /\ Forall (fun a => Forall (fun b => gameweek a <= gameweek b) rest) window.
Proof.
  intro window.
  pose proof (team_data_sorted (next_5 df g) t) as S.
  rewrite <- (firstn_skipn 5 (team_data (next_5 df g) t)) in S.
  apply StronglySorted_app_inv in S. destruct S as (S1 & _ & F).
  split; [exact S1|].
  split; [apply fixtures_length|].
  exists (skipn 5 (team_data (next_5 df g) t)). split; [|exact F].
  unfold window, fixtures. rewrite firstn_skipn. apply team_data_entries.
Qed.

(** Sorting before the cut matters: of Team A's six entries in gameweeks 1
    to 5 the window keeps gameweeks 1, 1, 2, 3, 4; the first five by index
    are those of gameweeks 5, 4, 3, 2, 1. *)
Example window_not_first_five_by_index :
  map gameweek (fixtures (SV:=stable_sort) (next_5 df_six 1) "Team A")
  = [1; 1; 2; 3; 4]
  /\ map gameweek (firstn 5 (entries_in_range df_six 1 "Team A"))
     = [5; 4; 3; 2; 1].
Proof. split; reflexivity. Qed.

(** C5 (as the code has it): a window has at most five entries and its
    gameweeks never decrease; they increase strictly when the team has no
    two entries of the same gameweek in range. *)
Theorem window_gameweeks_nondecreasing (SV : SortValues) (df : dataframe)
    (g : Z) (t : string) :
  let window := fixtures (next_5 df g) t in
  (List.length window <= 5)%nat
  /\ StronglySorted Z.le (map gameweek window)
  /\ (NoDup (map gameweek (entries_in_range df g t)) ->
      StronglySorted Z.lt (map gameweek window)).
Proof.
  intro window.
  assert (S : StronglySorted Z.le (map gameweek window)).
  { apply StronglySorted_map. unfold window, fixtures.
    pose proof (team_data_sorted (next_5 df g) t) as S.
    rewrite <- (firstn_skipn 5 (team_data (next_5 df g) t)) in S.
    now apply StronglySorted_app_inv in S. }
  split; [unfold window; rewrite fixtures_length; apply Nat.le_min_l|].
  split; [exact S|].
  intro N. apply sorted_le_NoDup_lt; [exact S|].
  pose proof (team_data_entries df g t) as P.
  rewrite <- (firstn_skipn 5 (team_data (next_5 df g) t)) in P.
  apply (Permutation_map gameweek) in P. rewrite map_app in P.
  apply (Permutation_NoDup (Permutation_sym P)) in N.
  now apply NoDup_app_remove_r in N.
Qed.

Lemma window_gameweeks_nondecreasing_witness :
  (List.length (fixtures (SV:=stable_sort) (next_5 df_abc 1) "Team A") <= 5)%nat
  /\ map gameweek (fixtures (SV:=stable_sort) (next_5 df_abc 1) "Team A") = [1; 2]
  /\ StronglySorted Z.lt
       (map gameweek (fixtures (SV:=stable_sort) (next_5 df_abc 1) "Team A")).
Proof.
  destruct (window_gameweeks_nondecreasing stable_sort df_abc 1 "Team A")
    as (L & _ & S).
  split; [exact L|]. split; [reflexivity|].
  apply S. vm_compute. repeat constructor; simpl; intuition discriminate.
Defined.

(** C5 as stated fails: Team A plays twice in gameweek 1, and its window
    from gameweek 1 has gameweeks 1, 1. *)
Lemma double_gameweek_not_strict :
  map gameweek (fixtures (SV:=stable_sort) (next_5 df_double 1) "Team A") = [1; 1]
  /\ ~ StronglySorted Z.lt
         (map gameweek (fixtures (SV:=stable_sort) (next_5 df_double 1) "Team A")).
Proof.
  split; [reflexivity|].
  intro S. vm_compute in S. apply StronglySorted_inv in S.
  destruct S as [_ F]. apply Forall_inv in F. discriminate F.
Qed.

(** ** Ties *)




(** ** Flattening *)

Lemma fdr_rows_found teams fixture h a :
  dict_get teams (Raw.team_h fixture) = Some h ->
  dict_get teams (Raw.team_a fixture) = Some a ->
  fdr_rows teams fixture
  = Returns
      [ {| fixture_id := Raw.id fixture; gameweek := Raw.event fixture;
           team := h; opponent := a; home_away := "Home";
           difficulty_rating := Raw.team_h_difficulty fixture;
           kickoff_time := Raw.kickoff_time fixture;
           finished := Raw.finished fixture |};
        {| fixture_id := Raw.id fixture; gameweek := Raw.event fixture;
           team := a; opponent := h; home_away := "Away";
           difficulty_rating := Raw.team_a_difficulty fixture;
           kickoff_time := Raw.kickoff_time fixture;
           finished := Raw.finished fixture |} ].
Proof.
  intros Hh Ha. unfold fdr_rows, getitem. rewrite Hh, Ha. reflexivity.
Qed.

(** A fixture whose home or away team id is not in the lookup stops the
    whole fetch: [get_fpl_fdr] returns [None]. *)
Lemma fdr_rows_unknown_team teams fixture :
  dict_get teams (Raw.team_h fixture) = None
  \/ dict_get teams (Raw.team_a fixture) = None ->
  exists k, fdr_rows teams fixture = Raises (KeyError (CInt k)).
Proof.
  unfold fdr_rows, getitem.
  destruct (dict_get teams (Raw.team_h fixture)) eqn:Hh; simpl.
  - intros [C|Ha]; [discriminate|]. rewrite Ha. simpl. eauto.
  - intros _. eauto.
Qed.

(** Two rows per fixture over the whole payload. *)
Lemma fdr_loop_length teams fixtures_data fdr_data out :
  fdr_loop teams fixtures_data fdr_data = Returns out ->
  List.length out = (List.length fdr_data + 2 * List.length fixtures_data)%nat.
Proof.
  revert fdr_data. induction fixtures_data as [|fx rest IH]; intro acc; simpl.
  - intros [= <-]. lia.
  - destruct (dict_get teams (Raw.team_h fx)) as [h|] eqn:Hh.
    + destruct (dict_get teams (Raw.team_a fx)) as [a|] eqn:Ha.
      * rewrite (fdr_rows_found teams fx h a Hh Ha). simpl.
        intro H. apply IH in H. rewrite H, length_app. simpl. lia.
      * destruct (fdr_rows_unknown_team teams fx (or_intror Ha)) as [k ->].
        discriminate.
    + destruct (fdr_rows_unknown_team teams fx (or_introl Hh)) as [k ->].
      discriminate.
Qed.

(** C7: flattening one raw fixture whose two team ids are in the lookup
    gives exactly two entries, the home one then the away one: team and
    opponent are swapped between them, the venues are Home and Away, and
    each difficulty is the payload's rating for that side. *)
Theorem flatten_yields_home_and_away (bootstrap_teams : list Raw.team)
    (fixture : Raw.fixture) (h a : string) :
  dict_get (teams_dict bootstrap_teams) (Raw.team_h fixture) = Some h ->
  dict_get (teams_dict bootstrap_teams) (Raw.team_a fixture) = Some a ->
  exists home away,
    get_fpl_fdr bootstrap_teams [fixture] = Returns (Some [home; away])
    /\ team home = h /\ opponent home = a
    /\ team away = a /\ opponent away = h
    /\ team home = opponent away /\ opponent home = team away
    /\ home_away home = "Home" /\ home_away away = "Away"
    /\ difficulty_rating home = Raw.team_h_difficulty fixture
    /\ difficulty_rating away = Raw.team_a_difficulty fixture
    /\ fixture_id home = Raw.id fixture /\ fixture_id away = Raw.id fixture
    /\ gameweek home = Raw.event fixture /\ gameweek away = Raw.event fixture.
Proof.
  intros Hh Ha. do 2 eexists.
  unfold get_fpl_fdr, get_fpl_fdr_body. simpl.
  rewrite (fdr_rows_found _ fixture h a Hh Ha). simpl.
  repeat split; reflexivity.
Qed.

Lemma flatten_yields_home_and_away_witness :
  exists home away,
    get_fpl_fdr bootstrap_sample [fixture_sample] = Returns (Some [home; away])
    /\ team home = "Spurs" /\ opponent home = "Arsenal"
    /\ team away = "Arsenal" /\ opponent away = "Spurs"
    /\ team home = opponent away /\ opponent home = team away
    /\ home_away home = "Home" /\ home_away away = "Away"
    /\ difficulty_rating home = 4 /\ difficulty_rating away = 3
    /\ fixture_id home = 7 /\ fixture_id away = 7
    /\ gameweek home = 3 /\ gameweek away = 3.
Proof.
  apply (flatten_yields_home_and_away bootstrap_sample fixture_sample
           "Spurs" "Arsenal"); reflexivity.
Defined.

(** ** Failures *)

(** C8 (as the code has it): the start gameweek is not checked.  Whatever
    its sign, the analysis returns a non-empty ranking when some entry has
    its gameweek in [[g, g+4]], and [None] when none has. *)
Theorem start_gameweek_not_checked (SV : SortValues) (df : dataframe) (g : Z) :
  if existsb (gameweek_mask g (g + 4)) df
  then exists rows,
         analyze_next_5_fixtures_fdr (Some df) g = Returns (Some rows)
         /\ rows <> []
  else analyze_next_5_fixtures_fdr (Some df) g = Returns None.
Proof.
  destruct (existsb (gameweek_mask g (g + 4)) df) eqn:E.
  - apply existsb_exists in E. destruct E as (e & He & Hm).
    assert (I : In e (next_5 df g)) by (apply filter_In; tauto).
    assert (N : team_analysis (next_5 df g) <> []).
    { intro C. apply (f_equal (map TeamRow.team)) in C.
      rewrite team_analysis_teams in C.
      assert (T : In (team e) (unique (map team (next_5 df g))))
        by (apply unique_In; now apply in_map).
      rewrite C in T. destruct T. }
    unfold analyze_next_5_fixtures_fdr, analyze_body, sort_by_average_fdr.
    destruct (team_analysis (next_5 df g)) as [|r l] eqn:T; [congruence|].
    simpl. eexists. split; [reflexivity|].
    intro C. apply (f_equal (map row)) in C. rewrite add_rank_row in C.
    pose proof (sort_values_perm _ TeamRow.average_fdr (r :: l)) as P.
    rewrite C in P. simpl in P. now apply Permutation_nil in P.
  - assert (N : next_5 df g = []).
    { unfold next_5.
      destruct (filter (gameweek_mask g (g + 4)) df) as [|e l] eqn:F;
        [reflexivity|].
      assert (I : In e (filter (gameweek_mask g (g + 4)) df))
        by (rewrite F; now left).
      apply filter_In in I.
      enough (existsb (gameweek_mask g (g + 4)) df = true) by congruence.
      apply existsb_exists. exists e. exact I. }
    unfold analyze_next_5_fixtures_fdr, analyze_body. rewrite N. reflexivity.
Qed.

(** C8 as stated fails: from start gameweek 0 the window is gameweeks 0 to
    4, and the analysis ranks the three teams of [df_abc]. *)
Lemma start_gameweek_zero_ranks :
  exists rows,
    analyze_next_5_fixtures_fdr (SV:=stable_sort) (Some df_abc) 0
    = Returns (Some rows)
    /\ ranked_teams rows = ["Team C"; "Team A"; "Team B"]
    /\ map fdr_rank rows = [1; 2; 3].
Proof.
  eexists. split; [vm_compute; reflexivity|].
  split; reflexivity.
Qed.

(** C9 (as the code has it): with the file missing or holding no entry the
    analysis returns [None]; no exception reaches the caller, whatever the
    input, and an empty ranking is never returned. *)
Theorem no_entries_returns_none (SV : SortValues) (file : option dataframe)
    (g : Z) :
  analyze_next_5_fixtures_fdr None g = Returns None
  /\ analyze_next_5_fixtures_fdr (Some []) g = Returns None
  /\ analyze_next_5_fixtures_fdr file g <> Returns (Some [])
  /\ forall e, analyze_next_5_fixtures_fdr file g <> Raises e.
Proof.
  split; [reflexivity|]. split; [reflexivity|]. split.
  - destruct file as [df|]; [|discriminate].
    intro C. destruct (analyze_rows df g [] C) as [N E].
    apply (f_equal (map row)) in E. rewrite add_rank_row in E. simpl in E.
    pose proof (sort_values_perm _ TeamRow.average_fdr
                  (team_analysis (next_5 df g))) as P.
    rewrite <- E in P. apply Permutation_nil in P. congruence.
  - intro e. unfold analyze_next_5_fixtures_fdr.
    destruct (analyze_body file g); discriminate.
Qed.

(** C9 as stated fails: with the file missing, and with an empty entry
    set, the call returns [None] like any other failure; nothing is raised
    to the caller. *)
Lemma missing_entries_not_raised :
  analyze_next_5_fixtures_fdr (SV:=stable_sort) None 1 = Returns None
  /\ analyze_next_5_fixtures_fdr (SV:=stable_sort) (Some []) 1 = Returns None
  /\ ~ (exists e, analyze_next_5_fixtures_fdr (SV:=stable_sort) None 1 = Raises e)
  /\ ~ (exists e, analyze_next_5_fixtures_fdr (SV:=stable_sort) (Some []) 1 = Raises e).
Proof.
  repeat split; try reflexivity; intros [e C]; discriminate C.
Qed.

(** ** The team lookup *)

Lemma teams_dict_rev (l : list Raw.team) :
  teams_dict l = rev (map (fun t => (Raw.team_id t, Raw.name t)) l).
Proof.
  unfold teams_dict, dict_set.
  rewrite <- (app_nil_r (rev _)). generalize (@nil (Z * string)).
  induction l as [|t l IH]; intro acc; simpl; [reflexivity|].
  rewrite IH, <- app_assoc. reflexivity.
Qed.

Lemma dict_get_app (d1 d2 : dict) (k : Z) :
  dict_get (d1 ++ d2) k
  = match dict_get d1 k with Some v => Some v | None => dict_get d2 k end.
Proof.
  induction d1 as [|[k' v] d1 IH]; simpl; [reflexivity|].
  destruct (k =? k')%Z; [reflexivity | exact IH].
Qed.

Lemma dict_get_None (d : dict) (k : Z) :
  dict_get d k = None <-> ~ In k (map fst d).
Proof.
  induction d as [|[k' v] d IH]; simpl; [tauto|].
  destruct (Z.eqb_spec k k') as [->|N].
  - split; [discriminate | tauto].
  - rewrite IH. split; [intros H [C|C]; congruence || tauto | tauto].
Qed.

Lemma teams_dict_keys (l : list Raw.team) (k : Z) :
  In k (map fst (teams_dict l)) <-> In k (map Raw.team_id l).
Proof.
  rewrite teams_dict_rev, map_rev, map_map. simpl. symmetry. apply in_rev.
Qed.

Lemma getitem_Returns (teams : dict) (k : Z) (v : string) :
  getitem teams k = Returns v <-> dict_get teams k = Some v.
Proof.
  unfold getitem. destruct (dict_get teams k); split; congruence.
Qed.

(** X1: [teams[k]] raises [KeyError(k)] exactly when no team of the
    bootstrap response has id [k]. *)
Theorem teams_lookup_fails_iff_absent (l : list Raw.team) (k : Z) :
  getitem (teams_dict l) k = Raises (KeyError (CInt k))
  <-> ~ In k (map Raw.team_id l).
Proof.
  rewrite <- teams_dict_keys, <- dict_get_None. unfold getitem.
  destruct (dict_get (teams_dict l) k); split; congruence.
Qed.

(** X2: when several teams of the response carry the same id, the dict
    comprehension keeps the name of the last one. *)
Theorem teams_lookup_last_wins (l1 l2 : list Raw.team) (t : Raw.team) :
  ~ In (Raw.team_id t) (map Raw.team_id l2) ->
  getitem (teams_dict (l1 ++ t :: l2)) (Raw.team_id t) = Returns (Raw.name t).
Proof.
  intro N. apply getitem_Returns.
  rewrite teams_dict_rev, map_app, rev_app_distr. simpl.
  rewrite <- app_assoc, dict_get_app.
  assert (E : dict_get (rev (map (fun t => (Raw.team_id t, Raw.name t)) l2))
                       (Raw.team_id t) = None).
  { apply dict_get_None. rewrite <- teams_dict_rev, teams_dict_keys. exact N. }
  rewrite E. simpl. now rewrite Z.eqb_refl.
Qed.

Lemma teams_lookup_last_wins_witness :
  getitem (teams_dict ([ {| Raw.team_id := 1; Raw.name := "Arsenal" |} ]
                       ++ {| Raw.team_id := 1; Raw.name := "Spurs" |}
                       :: [ {| Raw.team_id := 2; Raw.name := "Everton" |} ])) 1
  = Returns "Spurs".
Proof.
  apply (teams_lookup_last_wins
           [ {| Raw.team_id := 1; Raw.name := "Arsenal" |} ]
           [ {| Raw.team_id := 2; Raw.name := "Everton" |} ]
           {| Raw.team_id := 1; Raw.name := "Spurs" |}).
  simpl. intros [C|[]]. discriminate C.
Defined.

(** ** Loops that stop at the first exception *)

Section Traverse.

Context {A B : Type} (f : A -> outcome B).

(** The results of [f] on the elements in turn, up to the first raise. *)
Fixpoint traverse (l : list A) : outcome (list B) :=
  match l with
  | [] => Returns []
  | a :: l' => b <- f a ;; bs <- traverse l' ;; Returns (b :: bs)
  end.

Lemma traverse_Returns (l : list A) (bs : list B) :
  traverse l = Returns bs <-> Forall2 (fun a b => f a = Returns b) l bs.
Proof.
  revert bs. induction l as [|a l IH]; intro bs; simpl.
  - split; [intros [= <-]; constructor | intro H; inversion H; reflexivity].
  - destruct (f a) as [b|e] eqn:Fa; simpl.
    + destruct (traverse l) as [bs'|e] eqn:T; simpl.
      * split.
        -- intros [= <-]. constructor; [assumption | now apply IH].
        -- intro H. inversion H as [|? b' ? bs'' Hb Hbs]; subst.
           apply IH in Hbs. congruence.
      * split; [discriminate|].
        intro H. inversion H as [|? b' ? bs'' Hb Hbs]; subst.
        apply IH in Hbs. discriminate.
    + split; [discriminate|].
      intro H. inversion H as [|? b' ? bs'' Hb Hbs]; subst. congruence.
Qed.

Lemma traverse_Raises (l : list A) :
  (exists e, traverse l = Raises e) <-> exists a e, In a l /\ f a = Raises e.
Proof.
  induction l as [|a l IH]; simpl.
  - split; [intros [e C]; discriminate | intros (a & e & [] & _)].
  - destruct (f a) as [b|e] eqn:Fa; simpl.
    + destruct (traverse l) as [bs|e] eqn:T; simpl.
      * split; [intros [e C]; discriminate|].
        intros (a' & e & [<-|I] & Fa'); [congruence|].
        assert (C : exists e', Returns bs = @Raises (list B) e')
          by (apply IH; eauto).
        destruct C as [e' C]. discriminate.
      * split; [|eauto].
        intros _. assert (C : exists a e, In a l /\ f a = Raises e)
          by (apply IH; eauto).
        destruct C as (a' & e' & I & Fa'). eauto.
    + split; [|eauto]. intros _. exists a, e. auto.
Qed.

Lemma Forall2_nth_error_l {R : A -> B -> Prop} (l : list A) (bs : list B) i a :
  Forall2 R l bs -> nth_error l i = Some a ->
  exists b, nth_error bs i = Some b /\ R a b.
Proof.
  intro H. revert i. induction H as [|x y l bs Rxy H IH]; intros [|i]; simpl;
    try discriminate.
  - intros [= <-]. eauto.
  - apply IH.
Qed.

End Traverse.

Lemma fdr_loop_traverse teams fixtures_data fdr_data :
  fdr_loop teams fixtures_data fdr_data
  = (bs <- traverse (fdr_rows teams) fixtures_data ;;
     Returns (fdr_data ++ List.concat bs)).
Proof.
  revert fdr_data. induction fixtures_data as [|fx rest IH]; intro acc; simpl.
  - now rewrite app_nil_r.
  - destruct (fdr_rows teams fx) as [rows|e]; simpl; [|reflexivity].
    rewrite IH. destruct (traverse (fdr_rows teams) rest); simpl;
      [now rewrite app_assoc | reflexivity].
Qed.

Lemma fixtures_loop_traverse teams fixtures_data fixtures :
  fixtures_loop teams fixtures_data fixtures
  = (bs <- traverse (fixture_row teams) fixtures_data ;;
     Returns (fixtures ++ bs)).
Proof.
  revert fixtures. induction fixtures_data as [|fx rest IH]; intro acc; simpl.
  - now rewrite app_nil_r.
  - destruct (fixture_row teams fx) as [r|e]; simpl; [|reflexivity].
    rewrite IH. destruct (traverse (fixture_row teams) rest); simpl;
      [now rewrite <- app_assoc | reflexivity].
Qed.

Lemma players_loop_traverse teams elements players :
  players_loop teams elements players
  = (bs <- traverse (player_row teams) elements ;;
     Returns (players ++ bs)).
Proof.
  revert players. induction elements as [|p rest IH]; intro acc; simpl.
  - now rewrite app_nil_r.
  - destruct (player_row teams p) as [r|e]; simpl; [|reflexivity].
    rewrite IH. destruct (traverse (player_row teams) rest); simpl;
      [now rewrite <- app_assoc | reflexivity].
Qed.

(** What [fdr_rows] does, by whether the two team ids are known. *)
Lemma fdr_rows_Returns teams fixture rows :
  fdr_rows teams fixture = Returns rows ->
  exists h a,
    dict_get teams (Raw.team_h fixture) = Some h
    /\ dict_get teams (Raw.team_a fixture) = Some a
    /\ rows
       = [ {| fixture_id := Raw.id fixture; gameweek := Raw.event fixture;
              team := h; opponent := a; home_away := "Home";
              difficulty_rating := Raw.team_h_difficulty fixture;
              kickoff_time := Raw.kickoff_time fixture;
              finished := Raw.finished fixture |};
           {| fixture_id := Raw.id fixture; gameweek := Raw.event fixture;
              team := a; opponent := h; home_away := "Away";
              difficulty_rating := Raw.team_a_difficulty fixture;
              kickoff_time := Raw.kickoff_time fixture;
              finished := Raw.finished fixture |} ].
Proof.
  destruct (dict_get teams (Raw.team_h fixture)) as [h|] eqn:Hh.
  - destruct (dict_get teams (Raw.team_a fixture)) as [a|] eqn:Ha.
    + rewrite (fdr_rows_found teams fixture h a Hh Ha). intros [= <-]. eauto.
    + destruct (fdr_rows_unknown_team teams fixture (or_intror Ha)) as [k ->].
      discriminate.
  - destruct (fdr_rows_unknown_team teams fixture (or_introl Hh)) as [k ->].
    discriminate.
Qed.

Lemma fdr_rows_Raises_iff teams fixture :
  (exists e, fdr_rows teams fixture = Raises e)
  <-> dict_get teams (Raw.team_h fixture) = None
      \/ dict_get teams (Raw.team_a fixture) = None.
Proof.
  split.
  - intros [e E].
    destruct (dict_get teams (Raw.team_h fixture)) as [h|] eqn:Hh; [|now left].
    destruct (dict_get teams (Raw.team_a fixture)) as [a|] eqn:Ha; [|now right].
    rewrite (fdr_rows_found teams fixture h a Hh Ha) in E. discriminate.
  - intro H. destruct (fdr_rows_unknown_team teams fixture H) as [k E]. eauto.
Qed.

Lemma get_fpl_fdr_Some bootstrap_teams fixtures_data df :
  get_fpl_fdr bootstrap_teams fixtures_data = Returns (Some df)
  <-> exists bs,
        Forall2 (fun fx rows => fdr_rows (teams_dict bootstrap_teams) fx = Returns rows)
                fixtures_data bs
        /\ df = List.concat bs.
Proof.
  unfold get_fpl_fdr, get_fpl_fdr_body. rewrite fdr_loop_traverse.
  destruct (traverse (fdr_rows (teams_dict bootstrap_teams)) fixtures_data)
    as [bs|e] eqn:T; simpl.
  - apply traverse_Returns in T. split.
    + intros [= <-]. eauto.
    + intros (bs' & F & ->). apply traverse_Returns in T, F.
      assert (bs = bs') by congruence. subst. reflexivity.
  - split; [discriminate|]. intros (bs' & F & _).
    apply traverse_Returns in F. congruence.
Qed.

Lemma get_fpl_fdr_None bootstrap_teams fixtures_data :
  get_fpl_fdr bootstrap_teams fixtures_data = Returns None
  <-> exists fx e, In fx fixtures_data
                   /\ fdr_rows (teams_dict bootstrap_teams) fx = Raises e.
Proof.
  rewrite <- traverse_Raises.
  unfold get_fpl_fdr, get_fpl_fdr_body. rewrite fdr_loop_traverse.
  destruct (traverse (fdr_rows (teams_dict bootstrap_teams)) fixtures_data)
    as [bs|e]; simpl.
  - split; [discriminate | intros [e C]; discriminate].
  - split; eauto.
Qed.

Section Pairs.

Context {A B : Type} (P : A -> B -> B -> Prop).

Lemma concat_pairs_nth (l : list A) (bs : list (list B)) :
  Forall2 (fun a rows => exists x y, rows = [x; y] /\ P a x y) l bs ->
  List.length (List.concat bs) = (2 * List.length l)%nat
  /\ forall i a, nth_error l i = Some a ->
       exists x y, P a x y
                   /\ nth_error (List.concat bs) (2 * i) = Some x
                   /\ nth_error (List.concat bs) (2 * i + 1) = Some y.
Proof.
  induction 1 as [|a rows l bs (x & y & -> & Pa) F [IHlen IHnth]].
  - split; [reflexivity|]. intros [|i] a; discriminate.
  - split; [simpl in *; lia|].
    intros [|i] a'.
    + intros [= <-]. exists x, y. auto.
    + intro H. destruct (IHnth i a' H) as (x' & y' & Pa' & Hx & Hy).
      exists x', y'. split; [assumption|].
      replace (2 * S i)%nat with (S (S (2 * i))) by lia.
      split; assumption.
Qed.

End Pairs.

Lemma Forall2_In_r {A B : Type} (R : A -> B -> Prop) (l : list A) (bs : list B) b :
  Forall2 R l bs -> In b bs -> exists a, In a l /\ R a b.
Proof.
  induction 1 as [|x y l bs Rxy F IH]; simpl; [tauto|].
  intros [<-|I]; [eauto|]. destruct (IH I) as (a & Ia & Ra). eauto.
Qed.

(** ** The fetched frames *)

(** X3: a frame returned by [get_fpl_fdr] has two rows for each fixture of
    the payload, in payload order: rows 2i and 2i+1 are the home and the
    away entry of fixture i. *)
Theorem fdr_frame_in_payload_order (bootstrap_teams : list Raw.team)
    (fixtures_data : list Raw.fixture) (df : dataframe) :
  get_fpl_fdr bootstrap_teams fixtures_data = Returns (Some df) ->
  List.length df = (2 * List.length fixtures_data)%nat
  /\ forall i fixture, nth_error fixtures_data i = Some fixture ->
       exists home away,
         fdr_rows (teams_dict bootstrap_teams) fixture = Returns [home; away]
         /\ nth_error df (2 * i) = Some home
         /\ nth_error df (2 * i + 1) = Some away.
Proof.
  intro H. apply get_fpl_fdr_Some in H. destruct H as (bs & F & ->).
  apply (concat_pairs_nth
           (fun fx x y => fdr_rows (teams_dict bootstrap_teams) fx = Returns [x; y])).
  revert F. apply Forall2_impl. intros fx rows E.
  destruct (fdr_rows_Returns _ _ _ E) as (h & a & _ & _ & ->).
  do 2 eexists. split; [reflexivity | exact E].
Qed.

Lemma fdr_frame_in_payload_order_witness :
  exists df,
    get_fpl_fdr bootstrap_sample [fixture_sample; fixture_sample] = Returns (Some df)
    /\ List.length df = 4%nat
    /\ exists home away,
         fdr_rows (teams_dict bootstrap_sample) fixture_sample = Returns [home; away]
         /\ nth_error df 2 = Some home /\ nth_error df 3 = Some away.
Proof.
  eexists. split; [vm_compute; reflexivity|].
  destruct (fdr_frame_in_payload_order bootstrap_sample
              [fixture_sample; fixture_sample] _ eq_refl) as [L N].
  split; [exact L|]. exact (N 1%nat fixture_sample eq_refl).
Defined.

(** X4: [get_fpl_fdr] returns [None] exactly when some fixture of the
    payload names a home or away team id that no team of the bootstrap
    response has; one such fixture loses the whole frame. *)
Theorem fdr_fetch_fails_iff_unknown_team (bootstrap_teams : list Raw.team)
    (fixtures_data : list Raw.fixture) :
  get_fpl_fdr bootstrap_teams fixtures_data = Returns None
  <-> exists fixture,
        In fixture fixtures_data
        /\ (~ In (Raw.team_h fixture) (map Raw.team_id bootstrap_teams)
            \/ ~ In (Raw.team_a fixture) (map Raw.team_id bootstrap_teams)).
Proof.
  rewrite get_fpl_fdr_None. split.
  - intros (fx & e & I & E). exists fx. split; [assumption|].
    assert (R : exists e, fdr_rows (teams_dict bootstrap_teams) fx = Raises e)
      by eauto.
    apply fdr_rows_Raises_iff in R.
    rewrite !dict_get_None, !teams_dict_keys in R. exact R.
  - intros (fx & I & U).
    rewrite <- !teams_dict_keys, <- !dict_get_None in U.
    apply fdr_rows_Raises_iff in U. destruct U as [e E]. eauto.
Qed.

(** X5: in a frame returned by [get_fpl_fdr], every entry has a sibling:
    an entry of the same fixture and gameweek with team and opponent
    swapped and the other venue. *)
Theorem fdr_entry_has_sibling (bootstrap_teams : list Raw.team)
    (fixtures_data : list Raw.fixture) (df : dataframe) (e : fdr_entry) :
  get_fpl_fdr bootstrap_teams fixtures_data = Returns (Some df) ->
  In e df ->
  (home_away e = "Home" \/ home_away e = "Away")
  /\ exists e',
       In e' df
       /\ fixture_id e' = fixture_id e /\ gameweek e' = gameweek e
       /\ team e' = opponent e /\ opponent e' = team e
       /\ home_away e' <> home_away e
       /\ kickoff_time e' = kickoff_time e /\ finished e' = finished e.
Proof.
  intros H I. apply get_fpl_fdr_Some in H. destruct H as (bs & F & ->).
  apply in_concat in I. destruct I as (rows & Ir & Ie).
  destruct (Forall2_In_r _ _ _ _ F Ir) as (fx & _ & E).
  destruct (fdr_rows_Returns _ _ _ E) as (h & a & _ & _ & ->).
  destruct Ie as [<-|[<-|[]]]; simpl.
  - split; [now left|]. eexists. split.
    + apply in_concat. eexists. split; [exact Ir | right; left; reflexivity].
    + simpl. repeat split; try reflexivity. discriminate.
  - split; [now right|]. eexists. split.
    + apply in_concat. eexists. split; [exact Ir | left; reflexivity].
    + simpl. repeat split; try reflexivity. discriminate.
Qed.

Lemma fdr_entry_has_sibling_witness :
  exists e',
    In e' [ entry 7 3 "Spurs" "Arsenal" "Home" 4;
            entry 7 3 "Arsenal" "Spurs" "Away" 3 ]
    /\ fixture_id e' = 7 /\ gameweek e' = 3
    /\ team e' = "Arsenal" /\ opponent e' = "Spurs"
    /\ home_away e' <> "Home"
    /\ kickoff_time e' = None /\ finished e' = false.
Proof.
  exact (proj2 (fdr_entry_has_sibling bootstrap_sample [fixture_sample]
                  [ entry 7 3 "Spurs" "Arsenal" "Home" 4;
                    entry 7 3 "Arsenal" "Spurs" "Away" 3 ]
                  (entry 7 3 "Spurs" "Arsenal" "Home" 4)
                  eq_refl (or_introl eq_refl))).
Defined.

Lemma fixture_row_Returns teams fixture r :
  fixture_row teams fixture = Returns r
  <-> exists h a,
        dict_get teams (Raw.team_h (RawFixture.core fixture)) = Some h
        /\ dict_get teams (Raw.team_a (RawFixture.core fixture)) = Some a
        /\ r = {| FixtureRow.fixture_id := Raw.id (RawFixture.core fixture);
                  FixtureRow.gameweek := Raw.event (RawFixture.core fixture);
                  FixtureRow.kickoff_time := Raw.kickoff_time (RawFixture.core fixture);
                  FixtureRow.home_team := h;
                  FixtureRow.away_team := a;
                  FixtureRow.finished := Raw.finished (RawFixture.core fixture);
                  FixtureRow.home_score := RawFixture.team_h_score fixture;
                  FixtureRow.away_score := RawFixture.team_a_score fixture;
                  FixtureRow.minutes := RawFixture.minutes fixture;
                  FixtureRow.provisional_start_time :=
                    RawFixture.provisional_start_time fixture |}.
Proof.
  unfold fixture_row, getitem.
  destruct (dict_get teams (Raw.team_h (RawFixture.core fixture))) as [h|]; simpl.
  - destruct (dict_get teams (Raw.team_a (RawFixture.core fixture))) as [a|]; simpl.
    + split; [intros [= <-]; eauto | intros (h' & a' & [= <-] & [= <-] & ->); reflexivity].
    + split; [discriminate | intros (h' & a' & _ & C & _); discriminate].
  - split; [discriminate | intros (h' & a' & C & _); discriminate].
Qed.

Lemma fixture_row_Raises_iff teams fixture :
  (exists e, fixture_row teams fixture = Raises e)
  <-> dict_get teams (Raw.team_h (RawFixture.core fixture)) = None
      \/ dict_get teams (Raw.team_a (RawFixture.core fixture)) = None.
Proof.
  unfold fixture_row, getitem.
  destruct (dict_get teams (Raw.team_h (RawFixture.core fixture))) as [h|]; simpl.
  - destruct (dict_get teams (Raw.team_a (RawFixture.core fixture))) as [a|]; simpl.
    + split; [intros [e C]; discriminate | intros [C|C]; discriminate].
    + split; eauto.
  - split; eauto.
Qed.

Lemma get_fpl_fixtures_Some bootstrap_teams fixtures_data rows :
  get_fpl_fixtures bootstrap_teams fixtures_data = Returns (Some rows)
  <-> Forall2 (fun fx r => fixture_row (teams_dict bootstrap_teams) fx = Returns r)
              fixtures_data rows.
Proof.
  unfold get_fpl_fixtures. rewrite fixtures_loop_traverse, <- traverse_Returns.
  destruct (traverse (fixture_row (teams_dict bootstrap_teams)) fixtures_data);
    simpl; split; congruence.
Qed.

Lemma get_fpl_fixtures_None bootstrap_teams fixtures_data :
  get_fpl_fixtures bootstrap_teams fixtures_data = Returns None
  <-> exists fx e, In fx fixtures_data
                   /\ fixture_row (teams_dict bootstrap_teams) fx = Raises e.
Proof.
  rewrite <- traverse_Raises.
  unfold get_fpl_fixtures. rewrite fixtures_loop_traverse.
  destruct (traverse (fixture_row (teams_dict bootstrap_teams)) fixtures_data);
    simpl.
  - split; [discriminate | intros [e C]; discriminate].
  - split; eauto.
Qed.

Lemma Forall2_nth_error_r {A B : Type} (R : A -> B -> Prop) (l : list A)
    (bs : list B) i b :
  Forall2 R l bs -> nth_error bs i = Some b ->
  exists a, nth_error l i = Some a /\ R a b.
Proof.
  intro H. revert i. induction H as [|x y l bs Rxy H IH]; intros [|i]; simpl;
    try discriminate.
  - intros [= <-]. eauto.
  - apply IH.
Qed.

(** X6: a frame returned by [get_fpl_fixtures] has one row for each fixture
    of the payload, in payload order, with the two team names looked up and
    the scores copied. *)
Theorem fixtures_frame_in_payload_order (bootstrap_teams : list Raw.team)
    (fixtures_data : list RawFixture.t) (rows : list FixtureRow.t) :
  get_fpl_fixtures bootstrap_teams fixtures_data = Returns (Some rows) ->
  List.length rows = List.length fixtures_data
  /\ forall i fixture, nth_error fixtures_data i = Some fixture ->
       exists r,
         nth_error rows i = Some r
         /\ getitem (teams_dict bootstrap_teams) (Raw.team_h (RawFixture.core fixture))
            = Returns (FixtureRow.home_team r)
         /\ getitem (teams_dict bootstrap_teams) (Raw.team_a (RawFixture.core fixture))
            = Returns (FixtureRow.away_team r)
         /\ FixtureRow.fixture_id r = Raw.id (RawFixture.core fixture)
         /\ FixtureRow.gameweek r = Raw.event (RawFixture.core fixture)
         /\ FixtureRow.home_score r = RawFixture.team_h_score fixture
         /\ FixtureRow.away_score r = RawFixture.team_a_score fixture.
Proof.
  intro H. apply get_fpl_fixtures_Some in H. split.
  - symmetry. exact (Forall2_length H).
  - intros i fx Hi.
    destruct (Forall2_nth_error_l _ _ _ _ H Hi) as (r & Hr & E).
    apply fixture_row_Returns in E. destruct E as (h & a & Hh & Ha & ->).
    eexists. split; [exact Hr|]. simpl.
    rewrite !getitem_Returns. repeat split; try assumption; reflexivity.
Qed.

Lemma fixtures_frame_in_payload_order_witness :
  exists rows,
    get_fpl_fixtures bootstrap_sample [fixture_full_sample] = Returns (Some rows)
    /\ List.length rows = 1%nat
    /\ exists r,
         nth_error rows 0 = Some r
         /\ FixtureRow.home_team r = "Spurs" /\ FixtureRow.away_team r = "Arsenal"
         /\ FixtureRow.home_score r = Some 2.
Proof.
  eexists. split; [vm_compute; reflexivity|].
  destruct (fixtures_frame_in_payload_order bootstrap_sample
              [fixture_full_sample] _ eq_refl) as [L N].
  split; [exact L|].
  destruct (N 0%nat fixture_full_sample eq_refl) as (r & Hr & _).
  exists r. split; [exact Hr|].
  injection Hr as <-. repeat split; reflexivity.
Defined.

(** X7: on the same bootstrap teams and fixtures, [get_fpl_fixtures] and
    [get_fpl_fdr] fail together: one returns [None] exactly when the other
    does. *)
Theorem fixtures_and_fdr_fail_together (bootstrap_teams : list Raw.team)
    (fixtures_data : list RawFixture.t) :
  get_fpl_fixtures bootstrap_teams fixtures_data = Returns None
  <-> get_fpl_fdr bootstrap_teams (map RawFixture.core fixtures_data) = Returns None.
Proof.
  rewrite get_fpl_fixtures_None, get_fpl_fdr_None. split.
  - intros (fx & e & I & E).
    assert (R : exists e, fixture_row (teams_dict bootstrap_teams) fx = Raises e)
      by eauto.
    apply fixture_row_Raises_iff, fdr_rows_Raises_iff in R.
    destruct R as [e' E']. exists (RawFixture.core fx), e'.
    split; [now apply in_map | assumption].
  - intros (c & e & I & E). apply in_map_iff in I. destruct I as (fx & <- & I).
    assert (R : exists e, fdr_rows (teams_dict bootstrap_teams)
                            (RawFixture.core fx) = Raises e) by eauto.
    apply fdr_rows_Raises_iff, fixture_row_Raises_iff in R.
    destruct R as [e' E']. eauto.
Qed.

(** X8: when both fetches succeed on the same data, the FDR frame has twice
    the rows of the fixtures frame, and rows 2i and 2i+1 of the former are
    the home and away side of row i of the latter: same fixture, same
    gameweek, same team names. *)
Theorem fdr_frame_matches_fixtures_frame (bootstrap_teams : list Raw.team)
    (fixtures_data : list RawFixture.t) (rows : list FixtureRow.t)
    (df : dataframe) :
  get_fpl_fixtures bootstrap_teams fixtures_data = Returns (Some rows) ->
  get_fpl_fdr bootstrap_teams (map RawFixture.core fixtures_data) = Returns (Some df) ->
  List.length df = (2 * List.length rows)%nat
  /\ forall i r, nth_error rows i = Some r ->
       exists home away,
         nth_error df (2 * i) = Some home
         /\ nth_error df (2 * i + 1) = Some away
         /\ team home = FixtureRow.home_team r
         /\ opponent home = FixtureRow.away_team r
         /\ team away = FixtureRow.away_team r
         /\ opponent away = FixtureRow.home_team r
         /\ fixture_id home = FixtureRow.fixture_id r
         /\ fixture_id away = FixtureRow.fixture_id r
         /\ gameweek home = FixtureRow.gameweek r
         /\ gameweek away = FixtureRow.gameweek r.
Proof.
  intros Hx Hd. apply get_fpl_fixtures_Some in Hx.
  apply get_fpl_fdr_Some in Hd. destruct Hd as (bs & F & ->).
  assert (F' : Forall2
                 (fun fx rows => exists x y, rows = [x; y]
                    /\ fdr_rows (teams_dict bootstrap_teams) fx = Returns [x; y])
                 (map RawFixture.core fixtures_data) bs).
  { revert F. apply Forall2_impl. intros fx rs E.
    destruct (fdr_rows_Returns _ _ _ E) as (h & a & _ & _ & ->).
    do 2 eexists. split; [reflexivity | exact E]. }
  destruct (concat_pairs_nth _ _ _ F') as [L N].
  rewrite length_map in L. rewrite (Forall2_length Hx) in L.
  split; [exact L|].
  intros i r Hr.
  destruct (Forall2_nth_error_r _ _ _ _ _ Hx Hr) as (fx & Hfx & E).
  apply fixture_row_Returns in E. destruct E as (h & a & Hh & Ha & ->).
  destruct (N i (RawFixture.core fx) (map_nth_error _ _ _ Hfx))
    as (home & away & E & Hhome & Haway).
  destruct (fdr_rows_Returns _ _ _ E) as (h' & a' & Hh' & Ha' & [= -> ->]).
  assert (h' = h) by congruence. assert (a' = a) by congruence. subst.
  do 2 eexists. split; [exact Hhome|]. split; [exact Haway|].
  simpl. repeat split; reflexivity.
Qed.

Lemma fdr_frame_matches_fixtures_frame_witness :
  exists home away,
    nth_error [ entry 7 3 "Spurs" "Arsenal" "Home" 4;
                entry 7 3 "Arsenal" "Spurs" "Away" 3 ] 0 = Some home
    /\ nth_error [ entry 7 3 "Spurs" "Arsenal" "Home" 4;
                   entry 7 3 "Arsenal" "Spurs" "Away" 3 ] 1 = Some away
    /\ team home = "Spurs" /\ opponent home = "Arsenal"
    /\ team away = "Arsenal" /\ opponent away = "Spurs"
    /\ fixture_id home = 7 /\ fixture_id away = 7
    /\ gameweek home = 3 /\ gameweek away = 3.
Proof.
  destruct (fdr_frame_matches_fixtures_frame bootstrap_sample
              [fixture_full_sample] _ _ eq_refl eq_refl) as [_ N].
  exact (N 0%nat _ eq_refl).
Defined.

Lemma player_row_Returns teams player r :
  player_row teams player = Returns r
  <-> exists club,
        dict_get teams (RawPlayer.team player) = Some club
        /\ r = {| PlayerRow.id := RawPlayer.id player;
                  PlayerRow.name :=
                    (RawPlayer.first_name player ++ " "
                     ++ RawPlayer.second_name player)%string;
                  PlayerRow.web_name := RawPlayer.web_name player;
                  PlayerRow.club := club;
                  PlayerRow.position := RawPlayer.element_type player;
                  PlayerRow.current_price :=
                    (inject_Z (RawPlayer.now_cost player) / 10)%Q;
                  PlayerRow.total_points := RawPlayer.total_points player;
                  PlayerRow.form := RawPlayer.form player;
                  PlayerRow.points_per_game := RawPlayer.points_per_game player |}.
Proof.
  unfold player_row, getitem.
  destruct (dict_get teams (RawPlayer.team player)) as [c|]; simpl.
  - split; [intros [= <-]; eauto | intros (c' & [= <-] & ->); reflexivity].
  - split; [discriminate | intros (c' & C & _); discriminate].
Qed.

Lemma player_row_Raises_iff teams player :
  (exists e, player_row teams player = Raises e)
  <-> dict_get teams (RawPlayer.team player) = None.
Proof.
  unfold player_row, getitem.
  destruct (dict_get teams (RawPlayer.team player)) as [c|]; simpl.
  - split; [intros [e C]; discriminate | discriminate].
  - split; eauto.
Qed.

(** X9: [get_fpl_player_data] returns [None] exactly when some player's
    team id is the id of no team in the same response. *)
Theorem player_fetch_fails_iff_unknown_team (data_teams : list Raw.team)
    (data_elements : list RawPlayer.t) :
  get_fpl_player_data data_teams data_elements = Returns None
  <-> exists player,
        In player data_elements
        /\ ~ In (RawPlayer.team player) (map Raw.team_id data_teams).
Proof.
  unfold get_fpl_player_data. rewrite players_loop_traverse.
  assert (T := traverse_Raises (player_row (teams_dict data_teams)) data_elements).
  destruct (traverse (player_row (teams_dict data_teams)) data_elements)
    as [bs|e]; simpl.
  - split; [discriminate|].
    intros (p & I & U). rewrite <- teams_dict_keys, <- dict_get_None in U.
    apply player_row_Raises_iff in U. destruct U as [e E].
    assert (C : exists e', Returns bs = @Raises (list PlayerRow.t) e')
      by (apply T; eauto).
    destruct C as [e' C]. discriminate.
  - split; [intros _|reflexivity].
    assert (C : exists a e', In a data_elements
                /\ player_row (teams_dict data_teams) a = Raises e')
      by (apply T; eauto).
    destruct C as (p & e' & I & E). exists p. split; [assumption|].
    rewrite <- teams_dict_keys, <- dict_get_None.
    apply player_row_Raises_iff. eauto.
Qed.

(** X10: a frame returned by [get_fpl_player_data] has one row for each
    player, in payload order: the club is the name of the player's team, the
    name is first and second name joined by a space, and ten times the
    price is [now_cost]. *)
Theorem players_frame_in_payload_order (data_teams : list Raw.team)
    (data_elements : list RawPlayer.t) (rows : list PlayerRow.t) :
  get_fpl_player_data data_teams data_elements = Returns (Some rows) ->
  List.length rows = List.length data_elements
  /\ forall i player, nth_error data_elements i = Some player ->
       exists r,
         nth_error rows i = Some r
         /\ PlayerRow.id r = RawPlayer.id player
         /\ getitem (teams_dict data_teams) (RawPlayer.team player)
            = Returns (PlayerRow.club r)
         /\ PlayerRow.name r
            = (RawPlayer.first_name player ++ " " ++ RawPlayer.second_name player)%string
         /\ (PlayerRow.current_price r * 10 == inject_Z (RawPlayer.now_cost player))%Q.
Proof.
  unfold get_fpl_player_data. rewrite players_loop_traverse.
  destruct (traverse (player_row (teams_dict data_teams)) data_elements)
    as [bs|e] eqn:T; simpl; [|discriminate].
  intros [= <-]. apply traverse_Returns in T. split.
  - symmetry. exact (Forall2_length T).
  - intros i p Hi.
    destruct (Forall2_nth_error_l _ _ _ _ T Hi) as (r & Hr & E).
    apply player_row_Returns in E. destruct E as (c & Hc & ->).
    eexists. split; [exact Hr|]. simpl.
    rewrite getitem_Returns. repeat split; try assumption. field.
Qed.

Lemma players_frame_in_payload_order_witness :
  exists rows,
    get_fpl_player_data bootstrap_sample [player_sample] = Returns (Some rows)
    /\ List.length rows = 1%nat
    /\ exists r,
         nth_error rows 0 = Some r
         /\ PlayerRow.club r = "Arsenal"
         /\ PlayerRow.name r = "Bukayo Saka"
         /\ (PlayerRow.current_price r == 101 # 10)%Q.
Proof.
  eexists. split; [vm_compute; reflexivity|].
  destruct (players_frame_in_payload_order bootstrap_sample [player_sample] _
              eq_refl) as [L N].
  split; [exact L|].
  destruct (N 0%nat player_sample eq_refl) as (r & Hr & _).
  exists r. split; [exact Hr|].
  injection Hr as <-. repeat split; reflexivity.
Defined.

(** ** More on the ranking *)

Lemma iloc_or_blank_nth (w : list fdr_entry) (i : nat) (col : fdr_entry -> cell) :
  iloc_or_blank w i col
  = match nth_error w i with Some e => col e | None => blank end.
Proof.
  unfold iloc_or_blank. destruct (Nat.ltb_spec i (List.length w)) as [L|L].
  - reflexivity.
  - apply nth_error_None in L. now rewrite L.
Qed.

Lemma sum_bounds (lo hi : Z) (l : list Z) :
  Forall (fun x => lo <= x <= hi) l ->
  lo * Z.of_nat (List.length l) <= sum l <= hi * Z.of_nat (List.length l).
Proof.
  induction 1 as [|x l Hx F IH]; simpl sum; [simpl; lia|].
  change (List.length (x :: l)) with (S (List.length l)). lia.
Qed.

Lemma add_rank_ranks (l : list TeamRow.t) :
  map fdr_rank (add_rank l) = map Z.of_nat (seq 1 (List.length l)).
Proof.
  unfold add_rank. rewrite map_map. simpl.
  generalize 1%nat. induction l as [|r l IH]; intro k; simpl; [reflexivity|].
  f_equal. apply IH.
Qed.

Lemma StronglySorted_nth {A : Type} (R : A -> A -> Prop) (l : list A) i j a b :
  StronglySorted R l -> (i < j)%nat ->
  nth_error l i = Some a -> nth_error l j = Some b -> R a b.
Proof.
  intro S. revert i j. induction S as [|x l S IH F]; intros i j Lt Hi Hj.
  - destruct i; discriminate.
  - destruct j as [|j]; [lia|]. destruct i as [|i]; simpl in *.
    + injection Hi as <-. rewrite Forall_forall in F. apply F.
      eapply nth_error_In; eassumption.
    + apply (IH i j); [lia | assumption | assumption].
Qed.

Section RankingFacts.

Context {SV : SortValues}.

Lemma team_in_next_5_iff df g t :
  In t (map team (next_5 df g)) <-> entries_in_range df g t <> [].
Proof.
  split.
  - intros I C. apply in_map_iff in I. destruct I as (e & Et & He).
    apply next_5_In in He.
    assert (X : In e (entries_in_range df g t))
      by (apply entries_in_range_In; tauto).
    rewrite C in X. destruct X.
  - intro N. destruct (entries_in_range df g t) as [|e l] eqn:E; [congruence|].
    assert (X : In e (entries_in_range df g t)) by (rewrite E; now left).
    apply entries_in_range_In in X. destruct X as (Id & Et & Rg).
    apply in_map_iff. exists e. split; [assumption|]. apply next_5_In. tauto.
Qed.

Lemma fixtures_In df g t e :
  In e (fixtures (next_5 df g) t) ->
  In e df /\ team e = t /\ g <= gameweek e <= g + 4.
Proof.
  intro I. unfold fixtures in I.
  assert (I' : In e (team_data (next_5 df g) t)).
  { rewrite <- (firstn_skipn 5). apply in_or_app. now left. }
  apply (Permutation_in _ (team_data_entries df g t)) in I'.
  now apply entries_in_range_In.
Qed.

Lemma analyze_rows_sorted df g rows :
  analyze_next_5_fixtures_fdr (Some df) g = Returns (Some rows) ->
  StronglySorted
    (fun a b => (TeamRow.average_fdr (row a) <= TeamRow.average_fdr (row b))%Q) rows.
Proof.
  intro H. apply analyze_rows in H. destruct H as [_ ->].
  apply (StronglySorted_map row
           (fun a b => (TeamRow.average_fdr a <= TeamRow.average_fdr b)%Q)).
  rewrite add_rank_row. apply sort_values_sorted.
Qed.

Lemma next_5_app df1 df2 g : next_5 (df1 ++ df2) g = next_5 df1 g ++ next_5 df2 g.
Proof. unfold next_5. apply filter_app. Qed.

Lemma next_5_out_of_range extra g :
  (forall e, In e extra -> gameweek e < g \/ g + 4 < gameweek e) ->
  next_5 extra g = [].
Proof.
  intro H. destruct (next_5 extra g) as [|e l] eqn:E; [reflexivity|].
  assert (I : In e (next_5 extra g)) by (rewrite E; now left).
  apply next_5_In in I. destruct I as [I R]. specialize (H e I). lia.
Qed.

End RankingFacts.

(** X11: the ranking has a row for a team exactly when the team has at
    least one entry with gameweek in [[g, g+4]]. *)
Theorem team_ranked_iff_in_range (SV : SortValues) (df : dataframe) (g : Z)
    (rows : list ranked_row) (t : string) :
  analyze_next_5_fixtures_fdr (Some df) g = Returns (Some rows) ->
  (In t (ranked_teams rows) <-> entries_in_range df g t <> []).
Proof.
  intro H. rewrite <- team_in_next_5_iff.
  pose proof (ranked_teams_perm df g rows H) as P. split; intro I.
  - apply unique_In. exact (Permutation_in _ P I).
  - apply unique_In in I. exact (Permutation_in _ (Permutation_sym P) I).
Qed.

Lemma team_ranked_iff_in_range_witness :
  exists rows,
    analyze_next_5_fixtures_fdr (SV:=stable_sort) (Some df_abc) 2
    = Returns (Some rows)
    /\ (In "Team C" (ranked_teams rows) <-> entries_in_range df_abc 2 "Team C" <> []).
Proof.
  eexists. split; [vm_compute; reflexivity|].
  apply (team_ranked_iff_in_range stable_sort df_abc 2). vm_compute; reflexivity.
Defined.

(** X12: slot i of a row (i from 0) shows the opponent, the rating and the
    venue of the i-th entry of the team's window, and three empty strings
    when the window has no i-th entry. *)
Theorem row_slots_follow_window (SV : SortValues) (df : dataframe) (g : Z)
    (rows : list ranked_row) (r : ranked_row) (i : nat) :
  analyze_next_5_fixtures_fdr (Some df) g = Returns (Some rows) ->
  In r rows ->
  slot (row r) i
  = match nth_error (fixtures (next_5 df g) (TeamRow.team (row r))) i with
    | Some e => (CStr (opponent e), CInt (difficulty_rating e), CStr (home_away e))
    | None => (blank, blank, blank)
    end.
Proof.
  intros H Hr. destruct (row_origin df g rows r H Hr) as [_ E].
  remember (fixtures (next_5 df g) (TeamRow.team (row r))) as w eqn:Ew.
  assert (L : (List.length w <= 5)%nat).
  { rewrite Ew, fixtures_length. apply Nat.le_min_l. }
  rewrite E. clear E Ew.
  do 5 (destruct i as [|i];
        [ unfold slot, team_row; cbn [TeamRow.gw1_opponent TeamRow.gw1_fdr TeamRow.gw1_home_away
              TeamRow.gw2_opponent TeamRow.gw2_fdr TeamRow.gw2_home_away
              TeamRow.gw3_opponent TeamRow.gw3_fdr TeamRow.gw3_home_away
              TeamRow.gw4_opponent TeamRow.gw4_fdr TeamRow.gw4_home_away
              TeamRow.gw5_opponent TeamRow.gw5_fdr TeamRow.gw5_home_away];
          rewrite !iloc_or_blank_nth;
          match goal with |- context [nth_error w ?k] =>
            destruct (nth_error w k); reflexivity end
        | ]).
  assert (N : nth_error w (S (S (S (S (S i))))) = None)
    by (apply nth_error_None; lia).
  rewrite N. reflexivity.
Qed.

Lemma row_slots_follow_window_witness :
  slot (row ranked_team_a) 1 = (CStr "Team C", CInt 5, CStr "Home")
  /\ slot (row ranked_team_a) 2 = (blank, blank, blank).
Proof.
  split.
  - eapply (row_slots_follow_window stable_sort df_abc 1 _ ranked_team_a 1).
    + vm_compute; reflexivity.
    + right; left; reflexivity.
  - eapply (row_slots_follow_window stable_sort df_abc 1 _ ranked_team_a 2).
    + vm_compute; reflexivity.
    + right; left; reflexivity.
Defined.

(** X13: when every entry in range is rated between [lo] and [hi], so is
    the average of every row, and its total lies between [lo] and [hi]
    times the number of fixtures analysed. *)
Theorem row_ratings_within_bounds (SV : SortValues) (df : dataframe) (g : Z)
    (rows : list ranked_row) (r : ranked_row) (lo hi : Z) :
  (forall e, In e df -> g <= gameweek e <= g + 4 ->
             lo <= difficulty_rating e <= hi) ->
  analyze_next_5_fixtures_fdr (Some df) g = Returns (Some rows) ->
  In r rows ->
  lo * TeamRow.fixtures_analyzed (row r) <= TeamRow.total_fdr (row r)
    <= hi * TeamRow.fixtures_analyzed (row r)
  /\ (inject_Z lo <= TeamRow.average_fdr (row r))%Q
  /\ (TeamRow.average_fdr (row r) <= inject_Z hi)%Q.
Proof.
  intros B H Hr. destruct (row_origin df g rows r H Hr) as [I E].
  pose proof (fixtures_nonempty _ _ I) as N.
  remember (TeamRow.team (row r)) as t eqn:Et. clear Et.
  remember (fixtures (next_5 df g) t) as w eqn:Ew.
  assert (F : Forall (fun x => lo <= x <= hi) (map difficulty_rating w)).
  { apply Forall_forall. intros x Hx. apply in_map_iff in Hx.
    destruct Hx as (e & <- & He). rewrite Ew in He.
    apply fixtures_In in He. apply B; tauto. }
  apply sum_bounds in F. rewrite length_map in F.
  rewrite E. cbn [team_row TeamRow.fixtures_analyzed TeamRow.total_fdr TeamRow.average_fdr].
  split; [exact F|]. unfold mean. rewrite length_map.
  assert (P : (0 < inject_Z (Z.of_nat (List.length w)))%Q).
  { rewrite <- (Zlt_Qlt 0). destruct w; [congruence | simpl; lia]. }
  split.
  - apply Qle_shift_div_l; [exact P|].
    rewrite <- inject_Z_mult, <- Zle_Qle. lia.
  - apply Qle_shift_div_r; [exact P|].
    rewrite <- inject_Z_mult, <- Zle_Qle. lia.
Qed.

Lemma row_ratings_within_bounds_witness :
  1 * TeamRow.fixtures_analyzed (row ranked_team_a) <= TeamRow.total_fdr (row ranked_team_a)
    <= 5 * TeamRow.fixtures_analyzed (row ranked_team_a)
  /\ (inject_Z 1 <= TeamRow.average_fdr (row ranked_team_a))%Q
  /\ (TeamRow.average_fdr (row ranked_team_a) <= inject_Z 5)%Q.
Proof.
  eapply (row_ratings_within_bounds stable_sort df_abc 1 _ ranked_team_a 1 5).
  - intros e [<-|[<-|[<-|[<-|[]]]]] _; simpl; lia.
  - vm_compute; reflexivity.
  - right; left; reflexivity.
Defined.

(** X14: the ranking has as many rows as there are distinct teams among the
    entries in range, and the ranks are 1, 2, ..., that number, in row
    order. *)
Theorem ranks_count_the_teams (SV : SortValues) (df : dataframe) (g : Z)
    (rows : list ranked_row) :
  analyze_next_5_fixtures_fdr (Some df) g = Returns (Some rows) ->
  List.length rows = List.length (unique (map team (next_5 df g)))
  /\ map fdr_rank rows = map Z.of_nat (seq 1 (List.length rows)).
Proof.
  intro H. pose proof (ranked_teams_perm df g rows H) as P.
  apply Permutation_length in P. unfold ranked_teams in P.
  rewrite length_map in P. split; [exact P|].
  apply analyze_rows in H. destruct H as [_ ->].
  rewrite add_rank_ranks. unfold add_rank.
  now rewrite length_map, length_combine, length_seq, Nat.min_id.
Qed.

Lemma ranks_count_the_teams_witness :
  exists rows,
    analyze_next_5_fixtures_fdr (SV:=stable_sort) (Some df_abc) 1
    = Returns (Some rows)
    /\ List.length rows = 3%nat
    /\ map fdr_rank rows = [1; 2; 3].
Proof.
  eexists. split; [vm_compute; reflexivity|].
  apply (ranks_count_the_teams stable_sort df_abc 1). vm_compute; reflexivity.
Defined.

(** X15: [fixtures_analyzed] of a row is the number of the team's entries
    in range, capped at 5; it lies between 1 and 5. *)
Theorem fixtures_analyzed_capped (SV : SortValues) (df : dataframe) (g : Z)
    (rows : list ranked_row) (r : ranked_row) :
  analyze_next_5_fixtures_fdr (Some df) g = Returns (Some rows) ->
  In r rows ->
  TeamRow.fixtures_analyzed (row r)
  = Z.of_nat (Nat.min 5 (List.length (entries_in_range df g (TeamRow.team (row r)))))
  /\ 1 <= TeamRow.fixtures_analyzed (row r) <= 5.
Proof.
  intros H Hr. destruct (row_origin df g rows r H Hr) as [I E].
  pose proof (fixtures_nonempty _ _ I) as N.
  pose proof (fixtures_length df g (TeamRow.team (row r))) as L.
  remember (TeamRow.team (row r)) as t eqn:Et. clear Et.
  rewrite E. cbn [team_row TeamRow.fixtures_analyzed]. rewrite L.
  split; [reflexivity|].
  rewrite <- L. destruct (fixtures (next_5 df g) t) as [|e w]; [congruence|].
  rewrite L. simpl List.length in *. lia.
Qed.

Lemma fixtures_analyzed_capped_witness :
  exists rows r,
    analyze_next_5_fixtures_fdr (SV:=stable_sort) (Some df_six) 1
    = Returns (Some rows)
    /\ In r rows
    /\ List.length (entries_in_range df_six 1 (TeamRow.team (row r))) = 6%nat
    /\ TeamRow.fixtures_analyzed (row r) = 5.
Proof.
  do 2 eexists. split; [vm_compute; reflexivity|].
  split; [left; reflexivity|]. split; [reflexivity|].
  refine (eq_trans (proj1 (fixtures_analyzed_capped stable_sort df_six 1 _ _ _ _)) _).
  - vm_compute; reflexivity.
  - left; reflexivity.
  - reflexivity.
Defined.

(** X16: entries whose gameweek lies outside [[g, g+4]] never change the
    result, wherever they stand in the sheet. *)
Theorem out_of_range_entries_ignored (SV : SortValues) (df extra : dataframe)
    (g : Z) :
  (forall e, In e extra -> gameweek e < g \/ g + 4 < gameweek e) ->
  analyze_next_5_fixtures_fdr (Some (df ++ extra)) g
  = analyze_next_5_fixtures_fdr (Some df) g
  /\ analyze_next_5_fixtures_fdr (Some (extra ++ df)) g
     = analyze_next_5_fixtures_fdr (Some df) g.
Proof.
  intro H. apply next_5_out_of_range in H.
  unfold analyze_next_5_fixtures_fdr, analyze_body.
  rewrite !next_5_app, H, app_nil_r. simpl. split; reflexivity.
Qed.

Lemma out_of_range_entries_ignored_witness :
  analyze_next_5_fixtures_fdr (SV:=stable_sort)
    (Some (df_tie ++ [entry 9 8 "Everton" "Fulham" "Home" 2])) 1
  = analyze_next_5_fixtures_fdr (SV:=stable_sort) (Some df_tie) 1.
Proof.
  apply (out_of_range_entries_ignored stable_sort df_tie
           [entry 9 8 "Everton" "Fulham" "Home" 2] 1).
  intros e [<-|[]]. right. reflexivity.
Defined.

(** X17: a team whose average is strictly lower than another's is ranked
    strictly before it. *)
Theorem lower_average_ranks_first (SV : SortValues) (df : dataframe) (g : Z)
    (rows : list ranked_row) (r1 r2 : ranked_row) :
  analyze_next_5_fixtures_fdr (Some df) g = Returns (Some rows) ->
  In r1 rows -> In r2 rows ->
  (TeamRow.average_fdr (row r1) < TeamRow.average_fdr (row r2))%Q ->
  fdr_rank r1 < fdr_rank r2.
Proof.
  intros H I1 I2 Lt.
  pose proof (analyze_rows_sorted df g rows H) as S.
  assert (P : forall i r, nth_error rows i = Some r -> fdr_rank r = Z.of_nat i + 1).
  { apply analyze_rows in H. destruct H as [_ ->]. intros i r.
    apply add_rank_position. }
  apply In_nth_error in I1, I2. destruct I1 as [i Hi], I2 as [j Hj].
  rewrite (P i r1 Hi), (P j r2 Hj).
  destruct (Nat.lt_trichotomy i j) as [L|[->|L]]; [lia| |].
  - assert (r1 = r2) by congruence. subst. now apply Qlt_irrefl in Lt.
  - pose proof (StronglySorted_nth _ _ _ _ _ _ S L Hj Hi) as Le.
    simpl in Le. apply Qle_not_lt in Le. contradiction.
Qed.

Lemma lower_average_ranks_first_witness :
  exists rows r1 r2,
    analyze_next_5_fixtures_fdr (SV:=stable_sort) (Some df_abc) 1
    = Returns (Some rows)
    /\ TeamRow.team (row r1) = "Team C" /\ TeamRow.team (row r2) = "Team B"
    /\ fdr_rank r1 < fdr_rank r2.
Proof.
  do 3 eexists. split; [vm_compute; reflexivity|].
  split; [shelve|]. split; [shelve|].
  eapply (lower_average_ranks_first stable_sort df_abc 1).
  - vm_compute; reflexivity.
  - left; reflexivity.
  - right; right; left; reflexivity.
  - reflexivity.
  Unshelve. all: reflexivity.
Defined.

(** ** Fetch, then rank *)





(** ** File names *)

Lemma str_inj (a b : Z) : str a = str b -> a = b.
Proof.
  unfold str. intro H. apply DecimalZ.to_int_inj.
  apply (f_equal NilEmpty.int_of_string) in H.
  rewrite !NilEmpty.isi in H. congruence.
Qed.

Lemma string_length_append (s t : string) :
  String.length (s ++ t)%string = (String.length s + String.length t)%nat.
Proof. induction s as [|c s IH]; simpl; congruence. Qed.

Lemma string_append_inj_l (s s' t : string) :
  (s ++ t)%string = (s' ++ t)%string -> s = s'.
Proof.
  revert s'. induction s as [|c s IH]; intros [|c' s'] H; simpl in H.
  - reflexivity.
  - apply (f_equal String.length) in H. simpl in H.
    rewrite string_length_append in H. lia.
  - apply (f_equal String.length) in H. simpl in H.
    rewrite string_length_append in H. lia.
  - injection H as -> H. f_equal. now apply IH.
Qed.

Lemma truthy_false_iff (event_id : option Z) :
  truthy event_id = false <-> event_id = None \/ event_id = Some 0.
Proof.
  destruct event_id as [n|]; simpl.
  - rewrite negb_false_iff, Z.eqb_eq. split; [intros ->; now right|].
    intros [C|[= ->]]; [discriminate | reflexivity].
  - split; auto.
Qed.

(** X19: an [event_id] of 0 counts as no [event_id]: the unfiltered
    fixtures are requested and [fpl_fdr_all.xlsx], resp.
    [fpl_fixtures_all.xlsx], is written exactly when [event_id] is [None]
    or 0. *)
Theorem zero_event_id_means_all (event_id : option Z) :
  (fixtures_url event_id = "https://fantasy.premierleague.com/api/fixtures/"
   <-> event_id = None \/ event_id = Some 0)
  /\ (fdr_filename event_id = "fpl_fdr_all.xlsx"
      <-> event_id = None \/ event_id = Some 0)
  /\ (fixtures_filename event_id = "fpl_fixtures_all.xlsx"
      <-> event_id = None \/ event_id = Some 0).
Proof.
  rewrite <- truthy_false_iff.
  unfold fixtures_url, fdr_filename, fixtures_filename.
  destruct (truthy event_id); simpl; repeat split; intro H;
    try reflexivity; try discriminate H.
Qed.

(** X20: files of different gameweeks have different names: two different
    start gameweeks give two analysis files, and two different non-zero
    event ids give two FDR files and two fixtures files. *)
Theorem file_names_tell_gameweeks_apart (a b : Z) :
  a <> b ->
  next5_filename a <> next5_filename b
  /\ (a <> 0 -> b <> 0 ->
      fdr_filename (Some a) <> fdr_filename (Some b)
      /\ fixtures_filename (Some a) <> fixtures_filename (Some b)).
Proof.
  intro N. unfold fdr_filename, fixtures_filename, next5_filename, truthy. split.
  - simpl. intro H. injection H as H.
    now apply string_append_inj_l, str_inj in H.
  - intros Na Nb. apply Z.eqb_neq in Na, Nb. rewrite Na, Nb. simpl.
    split; intro H; injection H as H;
      now apply string_append_inj_l, str_inj in H.
Qed.

Lemma file_names_tell_gameweeks_apart_witness :
  next5_filename (-3) = "fpl_next5_fdr_analysis_gw-3.xlsx"
  /\ fdr_filename (Some 12) = "fpl_fdr_gw12.xlsx"
  /\ next5_filename 1 <> next5_filename 2
  /\ fdr_filename (Some 1) <> fdr_filename (Some 2)
  /\ fixtures_filename (Some 1) <> fixtures_filename (Some 2).
Proof.
  split; [reflexivity|]. split; [reflexivity|].
  destruct (file_names_tell_gameweeks_apart 1 2) as [A B]; [discriminate|].
  split; [exact A|]. apply B; discriminate.
Defined.

(** X21: the four kinds of file never share a name: an FDR file is never a
    fixtures file, the players file or an analysis file, and so on. *)
Theorem file_kinds_have_distinct_names (e e' : option Z) (g : Z) :
  fdr_filename e <> fixtures_filename e'
  /\ fdr_filename e <> next5_filename g
  /\ fdr_filename e <> players_filename
  /\ fixtures_filename e' <> next5_filename g
  /\ fixtures_filename e' <> players_filename
  /\ next5_filename g <> players_filename.
Proof.
  unfold fdr_filename, fixtures_filename, next5_filename, players_filename.
  destruct (truthy e), (truthy e'); simpl; repeat split; discriminate.
Qed.

(** ** The working directory *)

Lemma read_os_remove_same filename fs : read (os_remove filename fs) filename = None.
Proof.
  unfold os_remove. induction fs as [|[n sh] fs IH]; simpl; [reflexivity|].
  destruct (String.eqb filename n) eqn:E; simpl; [exact IH|].
  now rewrite E.
Qed.

Lemma read_os_remove_other filename other fs :
  other <> filename -> read (os_remove filename fs) other = read fs other.
Proof.
  intro N. unfold os_remove. induction fs as [|[n sh] fs IH]; simpl; [reflexivity|].
  destruct (String.eqb_spec filename n) as [<-|D]; simpl.
  - apply String.eqb_neq in N. now rewrite N.
  - now rewrite IH.
Qed.

Lemma read_to_excel_same filename sh fs : read (to_excel filename sh fs) filename = Some sh.
Proof. unfold to_excel. simpl. now rewrite String.eqb_refl. Qed.

Lemma read_to_excel_other filename other sh fs :
  other <> filename -> read (to_excel filename sh fs) other = read fs other.
Proof.
  intro N. unfold to_excel. simpl. pose proof N as N'.
  apply String.eqb_neq in N'. rewrite N'. now apply read_os_remove_other.
Qed.

Lemma os_remove_idem filename fs :
  os_remove filename (os_remove filename fs) = os_remove filename fs.
Proof.
  unfold os_remove. rewrite filter_filter. apply filter_ext.
  intro p. now destruct (String.eqb filename (fst p)).
Qed.

Lemma os_remove_to_excel filename sh fs :
  os_remove filename (to_excel filename sh fs) = os_remove filename fs.
Proof.
  unfold to_excel. unfold os_remove at 1. simpl.
  rewrite String.eqb_refl. simpl. apply os_remove_idem.
Qed.

Lemma read_written filename other sh fs :
  other <> filename ->
  read (to_excel filename sh (os_remove filename fs)) other = read fs other.
Proof.
  intro N. rewrite read_to_excel_other, read_os_remove_other by assumption.
  reflexivity.
Qed.

Lemma fdr_all_not_gameweek_file (event_id : option Z) :
  truthy event_id = true -> "fpl_fdr_all.xlsx" <> fdr_filename event_id.
Proof. unfold fdr_filename. intros ->. simpl. discriminate. Qed.


Lemma fdr_all_not_other_kind (e : option Z) (g : Z) :
  "fpl_fdr_all.xlsx" <> fixtures_filename e
  /\ "fpl_fdr_all.xlsx" <> next5_filename g
  /\ "fpl_fdr_all.xlsx" <> players_filename.
Proof.
  unfold fixtures_filename, next5_filename, players_filename.
  destruct (truthy e); simpl; repeat split; discriminate.
Qed.

Section DirectoryFacts.

Context {SV : SortValues}.

(** The result of the analysis depends on the directory through
    [fpl_fdr_all.xlsx] only. *)
Lemma analysis_reads_fdr_all g fs1 fs2 :
  read fs1 "fpl_fdr_all.xlsx" = read fs2 "fpl_fdr_all.xlsx" ->
  fst (IO.analyze_next_5_fixtures_fdr g fs1)
  = fst (IO.analyze_next_5_fixtures_fdr g fs2).
Proof.
  unfold IO.analyze_next_5_fixtures_fdr. intros ->.
  destruct (read fs2 "fpl_fdr_all.xlsx") as [[| |df|]|]; try reflexivity.
  destruct (analyze_next_5_fixtures_fdr (Some df) g) as [[rows|]|e]; reflexivity.
Qed.


Lemma analysis_keeps_fdr_all g fs :
  read (snd (IO.analyze_next_5_fixtures_fdr g fs)) "fpl_fdr_all.xlsx"
  = read fs "fpl_fdr_all.xlsx".
Proof.
  unfold IO.analyze_next_5_fixtures_fdr.
  destruct (read fs "fpl_fdr_all.xlsx") as [[| |df|]|] eqn:R; cbn [snd];
    try exact R.
  destruct (analyze_next_5_fixtures_fdr (Some df) g) as [[rows|]|e]; cbn [snd];
    try exact R.
  rewrite read_written; [exact R|]. apply fdr_all_not_other_kind. exact None.
Qed.

End DirectoryFacts.

Lemma io_fdr_read event_id bootstrap_teams fixtures_data fs other :
  other <> fdr_filename event_id ->
  read (snd (IO.get_fpl_fdr event_id bootstrap_teams fixtures_data fs)) other
  = read fs other.
Proof.
  intro N. unfold IO.get_fpl_fdr.
  destruct (get_fpl_fdr bootstrap_teams fixtures_data) as [[df|]|e]; cbn [snd];
    try reflexivity.
  now apply read_written.
Qed.

Lemma io_fixtures_read event_id bootstrap_teams fixtures_data fs other :
  other <> fixtures_filename event_id ->
  read (snd (IO.get_fpl_fixtures event_id bootstrap_teams fixtures_data fs)) other
  = read fs other.
Proof.
  intro N. unfold IO.get_fpl_fixtures.
  destruct (get_fpl_fixtures bootstrap_teams fixtures_data) as [[df|]|e]; cbn [snd];
    try reflexivity.
  now apply read_written.
Qed.

Lemma io_players_read data_teams data_elements fs other :
  other <> players_filename ->
  read (snd (IO.get_fpl_player_data data_teams data_elements fs)) other
  = read fs other.
Proof.
  intro N. unfold IO.get_fpl_player_data.
  destruct (get_fpl_player_data data_teams data_elements) as [[df|]|e]; cbn [snd];
    try reflexivity.
  now apply read_written.
Qed.

Lemma io_fdr_written event_id bootstrap_teams fixtures_data fs df :
  get_fpl_fdr bootstrap_teams fixtures_data = Returns (Some df) ->
  read (snd (IO.get_fpl_fdr event_id bootstrap_teams fixtures_data fs))
       (fdr_filename event_id)
  = Some (FdrSheet df).
Proof.
  intro H. unfold IO.get_fpl_fdr. rewrite H. cbn [snd]. apply read_to_excel_same.
Qed.



(** X23: a fetch for one gameweek (a non-zero [event_id]) leaves
    [fpl_fdr_all.xlsx] as it was, and so do [get_fpl_fixtures],
    [get_fpl_player_data] and the analysis itself: after any of them the
    analysis returns what it would have returned before. *)
Theorem analysis_input_untouched (SV : SortValues) (event_id e' : option Z)
    (teams : list Raw.team) (fdr_payload : list Raw.fixture)
    (fixtures_payload : list RawFixture.t) (elements : list RawPlayer.t)
    (fs : files) (g g' : Z) :
  truthy event_id = true ->
  fst (IO.analyze_next_5_fixtures_fdr g
         (snd (IO.get_fpl_fdr event_id teams fdr_payload fs)))
  = fst (IO.analyze_next_5_fixtures_fdr g fs)
  /\ fst (IO.analyze_next_5_fixtures_fdr g
            (snd (IO.get_fpl_fixtures e' teams fixtures_payload fs)))
     = fst (IO.analyze_next_5_fixtures_fdr g fs)
  /\ fst (IO.analyze_next_5_fixtures_fdr g
            (snd (IO.get_fpl_player_data teams elements fs)))
     = fst (IO.analyze_next_5_fixtures_fdr g fs)
  /\ fst (IO.analyze_next_5_fixtures_fdr g
            (snd (IO.analyze_next_5_fixtures_fdr g' fs)))
     = fst (IO.analyze_next_5_fixtures_fdr g fs).
Proof.
  intro T. repeat split; apply analysis_reads_fdr_all.
  - apply io_fdr_read. now apply fdr_all_not_gameweek_file.
  - apply io_fixtures_read. apply (fdr_all_not_other_kind e' 0).
  - apply io_players_read. apply (fdr_all_not_other_kind None 0).
  - apply analysis_keeps_fdr_all.
Qed.

Lemma analysis_input_untouched_witness :
  fst (IO.analyze_next_5_fixtures_fdr (SV:=stable_sort) 1
         (snd (IO.get_fpl_fdr (Some 1) bootstrap_sample [fixture_sample]
                 [("fpl_fdr_all.xlsx", FdrSheet df_abc)])))
  = fst (IO.analyze_next_5_fixtures_fdr (SV:=stable_sort) 1
           [("fpl_fdr_all.xlsx", FdrSheet df_abc)]).
Proof.
  apply (analysis_input_untouched stable_sort (Some 1) None bootstrap_sample
           [fixture_sample] [] [] [("fpl_fdr_all.xlsx", FdrSheet df_abc)] 1 1).
  reflexivity.
Defined.

(** X24: the analysis can be repeated: a second run from the same start
    gameweek returns the same ranking and leaves the directory as the first
    run left it. *)
Theorem analysis_repeatable (SV : SortValues) (g : Z) (fs : files) :
  IO.analyze_next_5_fixtures_fdr g (snd (IO.analyze_next_5_fixtures_fdr g fs))
  = IO.analyze_next_5_fixtures_fdr g fs.
Proof.
  pose proof (analysis_keeps_fdr_all g fs) as K.
  destruct (IO.analyze_next_5_fixtures_fdr g fs) as [r fs1] eqn:E.
  cbn [snd] in *. unfold IO.analyze_next_5_fixtures_fdr in *. rewrite K.
  destruct (read fs "fpl_fdr_all.xlsx") as [[| |df|]|];
    try (injection E as <- <-; reflexivity).
  destruct (analyze_next_5_fixtures_fdr (Some df) g) as [[rows|]|e];
    injection E as <- <-; [|reflexivity|reflexivity].
  cbv zeta. f_equal. unfold to_excel at 1 3. f_equal.
  now rewrite os_remove_to_excel, !os_remove_idem.
Qed.

(** X25: a fetch that meets a team id unknown to the bootstrap response
    returns [None] and writes nothing: the directory is as it was. *)
Theorem failed_fetch_writes_nothing (event_id : option Z)
    (bootstrap_teams : list Raw.team) (fixtures_data : list Raw.fixture)
    (fixture : Raw.fixture) (fs : files) :
  In fixture fixtures_data ->
  ~ In (Raw.team_h fixture) (map Raw.team_id bootstrap_teams)
  \/ ~ In (Raw.team_a fixture) (map Raw.team_id bootstrap_teams) ->
  IO.get_fpl_fdr event_id bootstrap_teams fixtures_data fs = (Returns None, fs).
Proof.
  intros I U.
  assert (N : get_fpl_fdr bootstrap_teams fixtures_data = Returns None).
  { apply get_fpl_fdr_None.
    rewrite <- !teams_dict_keys, <- !dict_get_None in U.
    apply fdr_rows_Raises_iff in U. destruct U as [e E]. eauto. }
  unfold IO.get_fpl_fdr. now rewrite N.
Qed.

Lemma failed_fetch_writes_nothing_witness :
  IO.get_fpl_fdr None [] [fixture_sample] [("fpl_fdr_all.xlsx", FdrSheet df_abc)]
  = (Returns None, [("fpl_fdr_all.xlsx", FdrSheet df_abc)]).
Proof.
  apply (failed_fetch_writes_nothing None [] [fixture_sample] fixture_sample).
  - left; reflexivity.
  - left. intros [].
Defined.

(** X26: a fetch that succeeds stores its frame under its file name, where
    it can be read back, and leaves every other file as it was. *)
Theorem fetch_writes_its_file_only (event_id : option Z)
    (bootstrap_teams : list Raw.team) (fixtures_data : list Raw.fixture)
    (fs : files) (df : dataframe) :
  fst (IO.get_fpl_fdr event_id bootstrap_teams fixtures_data fs) = Returns (Some df) ->
  read (snd (IO.get_fpl_fdr event_id bootstrap_teams fixtures_data fs))
       (fdr_filename event_id) = Some (FdrSheet df)
  /\ forall other, other <> fdr_filename event_id ->
       read (snd (IO.get_fpl_fdr event_id bootstrap_teams fixtures_data fs)) other
       = read fs other.
Proof.
  intro H. split; [|intros other N; now apply io_fdr_read].
  apply io_fdr_written. unfold IO.get_fpl_fdr in H.
  destruct (get_fpl_fdr bootstrap_teams fixtures_data) as [[df'|]|e];
    simpl in H; congruence.
Qed.

Lemma fetch_writes_its_file_only_witness :
  read (snd (IO.get_fpl_fdr (Some 3) bootstrap_sample [fixture_sample]
               [("fpl_fdr_all.xlsx", FdrSheet df_abc)]))
       "fpl_fdr_gw3.xlsx"
  = Some (FdrSheet [ entry 7 3 "Spurs" "Arsenal" "Home" 4;
                     entry 7 3 "Arsenal" "Spurs" "Away" 3 ])
  /\ read (snd (IO.get_fpl_fdr (Some 3) bootstrap_sample [fixture_sample]
                  [("fpl_fdr_all.xlsx", FdrSheet df_abc)]))
          "fpl_fdr_all.xlsx"
     = Some (FdrSheet df_abc).
Proof.
  destruct (fetch_writes_its_file_only (Some 3) bootstrap_sample [fixture_sample]
              [("fpl_fdr_all.xlsx", FdrSheet df_abc)] _ eq_refl) as [W O].
  split; [exact W|]. apply O. discriminate.
Defined.

